(** * Authorino: the check handler and the generic HTTP metadata evaluator

    A shallow embedding of [pkg/service/auth.go] (the [AuthService.Check]
    handler with its response rendering) and of the generic HTTP evaluator
    ([GenericHttp.Call] and [GenericHttp.buildRequestBody]), followed by the
    properties of the specification that concern them.

    Go values are modelled as follows: [string] is a byte string, [int32]
    enumerations are [Z], a pointer that may be nil is an [option], a Go map is
    a [gmap], a nil-able slice is an [option (list _)].  Effects (log lines,
    cache reads, pipeline runs, outbound HTTP calls) are recorded in an
    explicit event trace returned next to the result. *)

From Stdlib Require Import ZArith Lia Ascii String List.
From stdpp Require Import gmap strings list fin_maps.

Set Warnings "-register-all,-clear-no-such-hyp".

Local Open Scope string_scope.
Local Open Scope list_scope.

(** ** Go prelude: errors, panics and the [strings] package *)

Module Go.

(** Go's [error] values that flow through the embedded code. *)
Inductive error : Type :=
| fmt_Errorf (msg : string)                 (* fmt.Errorf(msg) *)
| io_EOF                                    (* io.EOF *)
| io_ErrUnexpectedEOF                       (* io.ErrUnexpectedEOF *)
| json_SyntaxError                          (* *json.SyntaxError *)
| json_UnmarshalTypeError                   (* *json.UnmarshalTypeError *)
| context_Canceled                          (* context.Canceled *)
| context_DeadlineExceeded                  (* context.DeadlineExceeded *)
| foreign_error (pkg msg : string).         (* an error built by a collaborator *)

(** An [io.Reader] over a finite stream: the bytes not yet read and, once
    they are read, either [io.EOF] ([None]) or a read error. *)
Record Reader : Type := {
  unread : string;
  failure : option error;
}.

(** A function body either returns or panics. *)
Inductive Outcome (A : Type) : Type :=
| Returned (a : A)
| Panicked (reason : string).
Arguments Returned {A} a.
Arguments Panicked {A} reason.

(** [strings.HasPrefix s prefix]. *)
Fixpoint strings_HasPrefix (s prefix : string) {struct prefix} : bool :=
  match prefix, s with
  | EmptyString, _ => true
  | String _ _, EmptyString => false
  | String p prefix', String c s' => Ascii.eqb p c && strings_HasPrefix s' prefix'
  end.

(** [strings.Contains s substr]: [substr] occurs at some offset of [s]. *)
Fixpoint strings_Contains (s substr : string) : bool :=
  strings_HasPrefix s substr ||
  match s with
  | EmptyString => false
  | String _ s' => strings_Contains s' substr
  end.

(** The scan behind [strings.Split s sep] for a separator [sep] that is not
    empty: [skip] counts the bytes of a separator occurrence still to be
    passed over, [cur] is the piece accumulated since the last separator. *)
Fixpoint split_scan (sep : string) (skip : nat) (cur s : string) : list string :=
  match s with
  | EmptyString => [cur]
  | String c s' =>
      match skip with
      | S k => split_scan sep k cur s'
      | O =>
          if strings_HasPrefix s sep
          then cur :: split_scan sep (String.length sep - 1) EmptyString s'
          else split_scan sep O (cur +:+ String c EmptyString) s'
      end
  end.

(** With an empty separator Go splits after each UTF-8 sequence (stated here
    for valid UTF-8 text; the handler only ever splits at a colon). *)
Fixpoint explode (s : string) : list string :=
  match s with
  | EmptyString => []
  | String c s' =>
      (* a continuation byte 10xxxxxx stays with the sequence before it *)
      match explode s' with
      | piece :: rest =>
          match piece with
          | String d _ =>
              if (128 <=? nat_of_ascii d)%nat && (nat_of_ascii d <? 192)%nat
              then (String c piece) :: rest
              else String c EmptyString :: piece :: rest
          | EmptyString => String c EmptyString :: piece :: rest
          end
      | [] => [String c EmptyString]
      end
  end.

(** [strings.Split s sep]. *)
Definition strings_Split (s sep : string) : list string :=
  match sep with
  | EmptyString => explode s
  | String _ _ => split_scan sep O EmptyString s
  end.

(** [strings.Join elems sep]. *)
Fixpoint strings_Join (elems : list string) (sep : string) : string :=
  match elems with
  | [] => EmptyString
  | [e] => e
  | e :: rest => e +:+ sep +:+ strings_Join rest sep
  end.

End Go.

(** [context.Context] as the embedded code observes it: whether the scope is
    still live, and whether the logger it carries is enabled at level 1. *)
Module gocontext.

Inductive State : Type :=
| Active
| Canceled
| DeadlineExceeded.

Record Context : Type := {
  state : State;
  logger_V1_Enabled : bool;
}.

End gocontext.

(** ** [encoding/json]: the streaming decoder

    [Decoder.Decode] into a [map[string]interface{}] and [Decoder.More], as
    the scanner of encoding/json reads a byte stream: one byte at a time,
    with a stack of the containers that are open. A decoded value is
    represented by its syntax tree; number and string literals are kept as
    written. *)

Module gojson.
Import Go.

Inductive value : Type :=
| Null
| Bool (b : bool)
| Number (literal : string)
| String_ (literal : string)
| Array (elements : list value)
| Object (members : list (string * value)).

(** The containers that are open ([parseState]); lists hold what was read so
    far, latest first. *)
Inductive frame : Type :=
| parseArrayValue (elements : list value)
| parseObjectKey (members : list (string * value)) (key : option string)
| parseObjectValue (members : list (string * value)) (key : string) (val : option value).

(** The scanner's [step] functions. *)
Inductive state : Type :=
| stateBeginValueOrEmpty       (* after [ *)
| stateBeginValue
| stateBeginStringOrEmpty      (* after { *)
| stateBeginString             (* after , in an object *)
| stateEndValue                (* after a value inside a container *)
| stateEndTop (v : value)      (* after a top-level literal or string *)
| stateInString (lit : string)
| stateInStringEsc (lit : string)
| stateInStringEscU (seen : nat) (lit : string)
| stateNeg (lit : string)
| state1 (lit : string)        (* digits of a non-zero integer part *)
| state0 (lit : string)        (* after the integer part *)
| stateDot (lit : string)
| stateDot0 (lit : string)
| stateE (lit : string)
| stateESign (lit : string)
| stateE0 (lit : string)
| stateLiteral (rest : string) (v : value).   (* inside true, false or null *)

Inductive step_result : Type :=
| scanContinue (st : state) (stack : list frame)
| scanEnd (v : value) (consumed : bool)   (* a top-level value is complete; the
                                             byte read is part of it or not *)
| scanError.

Definition maxNestingDepth : Z := 10000%Z.

(** The byte of a double quote. *)
Definition quote : ascii := ascii_of_nat 34.

Definition isSpace (c : ascii) : bool :=
  (c =? " ")%char || (c =? "009")%char || (c =? "013")%char || (c =? "010")%char.

Definition isDigit (c : ascii) : bool :=
  (48 <=? nat_of_ascii c)%nat && (nat_of_ascii c <=? 57)%nat.

Definition isHex (c : ascii) : bool :=
  isDigit c
  || ((97 <=? nat_of_ascii c)%nat && (nat_of_ascii c <=? 102)%nat)
  || ((65 <=? nat_of_ascii c)%nat && (nat_of_ascii c <=? 70)%nat).

Definition snoc (lit : string) (c : ascii) : string := lit +:+ String c EmptyString.

(** A scalar (literal, number or string) is complete: it becomes an element,
    a key or a member value of the innermost open container. *)
Definition endScalar (v : value) (stack : list frame) : step_result :=
  match stack with
  | [] => scanContinue (stateEndTop v) []
  | parseArrayValue elements :: stack' =>
      scanContinue stateEndValue (parseArrayValue (v :: elements) :: stack')
  | parseObjectKey members None :: stack' =>
      match v with
      | String_ key => scanContinue stateEndValue (parseObjectKey members (Some key) :: stack')
      | _ => scanError
      end
  | parseObjectValue members key None :: stack' =>
      scanContinue stateEndValue (parseObjectValue members key (Some v) :: stack')
  | _ => scanError
  end.

(** A container is complete at its closing bracket ([popParseState]). *)
Definition endContainer (v : value) (stack : list frame) : step_result :=
  match stack with
  | [] => scanEnd v true
  | _ => endScalar v stack
  end.

Definition pushParseState (f : frame) (stack : list frame) (success : state) : step_result :=
  if (Z.of_nat (length stack) <? maxNestingDepth)%Z
  then scanContinue success (f :: stack)
  else scanError.

(** [stateEndValue]: the byte after a value. *)
Definition step_EndValue (stack : list frame) (c : ascii) : step_result :=
  match stack with
  | [] => scanError
  | top :: stack' =>
      if isSpace c then scanContinue stateEndValue stack else
      match top with
      | parseObjectKey members (Some key) =>
          if (c =? ":")%char
          then scanContinue stateBeginValue (parseObjectValue members key None :: stack')
          else scanError
      | parseObjectValue members key (Some v) =>
          if (c =? ",")%char
          then scanContinue stateBeginString (parseObjectKey ((key, v) :: members) None :: stack')
          else if (c =? "}")%char
          then endContainer (Object (rev ((key, v) :: members))) stack'
          else scanError
      | parseArrayValue elements =>
          if (c =? ",")%char
          then scanContinue stateBeginValue stack
          else if (c =? "]")%char
          then endContainer (Array (rev elements)) stack'
          else scanError
      | _ => scanError
      end
  end.

(** A number ends at the first byte that cannot continue it; that byte is
    then read in the state after a value. *)
Definition endNumber (lit : string) (stack : list frame) (c : ascii) : step_result :=
  match stack with
  | [] => scanEnd (Number lit) false
  | _ =>
      match endScalar (Number lit) stack with
      | scanContinue _ stack' => step_EndValue stack' c
      | r => r
      end
  end.

Definition step_BeginString (stack : list frame) (c : ascii) : step_result :=
  if isSpace c then scanContinue stateBeginString stack
  else if (c =? quote)%char then scanContinue (stateInString EmptyString) stack
  else scanError.

Definition step_BeginValue (stack : list frame) (c : ascii) : step_result :=
  if isSpace c then scanContinue stateBeginValue stack
  else if (c =? "{")%char
  then pushParseState (parseObjectKey [] None) stack stateBeginStringOrEmpty
  else if (c =? "[")%char
  then pushParseState (parseArrayValue []) stack stateBeginValueOrEmpty
  else if (c =? quote)%char then scanContinue (stateInString EmptyString) stack
  else if (c =? "-")%char then scanContinue (stateNeg (String c EmptyString)) stack
  else if (c =? "0")%char then scanContinue (state0 (String c EmptyString)) stack
  else if (c =? "t")%char then scanContinue (stateLiteral "rue" (Bool true)) stack
  else if (c =? "f")%char then scanContinue (stateLiteral "alse" (Bool false)) stack
  else if (c =? "n")%char then scanContinue (stateLiteral "ull" Null) stack
  else if isDigit c then scanContinue (state1 (String c EmptyString)) stack
  else scanError.

Definition step_state0 (lit : string) (stack : list frame) (c : ascii) : step_result :=
  if (c =? ".")%char then scanContinue (stateDot (snoc lit c)) stack
  else if (c =? "e")%char || (c =? "E")%char then scanContinue (stateE (snoc lit c)) stack
  else endNumber lit stack c.

Definition step_ESign (lit : string) (stack : list frame) (c : ascii) : step_result :=
  if isDigit c then scanContinue (stateE0 (snoc lit c)) stack else scanError.

Definition step (st : state) (stack : list frame) (c : ascii) : step_result :=
  match st with
  | stateBeginValueOrEmpty =>
      if isSpace c then scanContinue stateBeginValueOrEmpty stack
      else if (c =? "]")%char then step_EndValue stack c
      else step_BeginValue stack c
  | stateBeginValue => step_BeginValue stack c
  | stateBeginStringOrEmpty =>
      if isSpace c then scanContinue stateBeginStringOrEmpty stack
      else if (c =? "}")%char then
        match stack with
        | parseObjectKey members None :: stack' => endContainer (Object (rev members)) stack'
        | _ => scanError
        end
      else step_BeginString stack c
  | stateBeginString => step_BeginString stack c
  | stateEndValue => step_EndValue stack c
  | stateEndTop v => scanEnd v false
  | stateInString lit =>
      if (c =? quote)%char then endScalar (String_ lit) stack
      else if (c =? "\")%char then scanContinue (stateInStringEsc (snoc lit c)) stack
      else if (nat_of_ascii c <? 32)%nat then scanError
      else scanContinue (stateInString (snoc lit c)) stack
  | stateInStringEsc lit =>
      if (c =? "b")%char || (c =? "f")%char || (c =? "n")%char || (c =? "r")%char
         || (c =? "t")%char || (c =? "\")%char || (c =? "/")%char || (c =? quote)%char
      then scanContinue (stateInString (snoc lit c)) stack
      else if (c =? "u")%char then scanContinue (stateInStringEscU 0 (snoc lit c)) stack
      else scanError
  | stateInStringEscU seen lit =>
      if isHex c then
        if (seen =? 3)%nat then scanContinue (stateInString (snoc lit c)) stack
        else scanContinue (stateInStringEscU (S seen) (snoc lit c)) stack
      else scanError
  | stateNeg lit =>
      if (c =? "0")%char then scanContinue (state0 (snoc lit c)) stack
      else if isDigit c then scanContinue (state1 (snoc lit c)) stack
      else scanError
  | state1 lit =>
      if isDigit c then scanContinue (state1 (snoc lit c)) stack
      else step_state0 lit stack c
  | state0 lit => step_state0 lit stack c
  | stateDot lit =>
      if isDigit c then scanContinue (stateDot0 (snoc lit c)) stack else scanError
  | stateDot0 lit =>
      if isDigit c then scanContinue (stateDot0 (snoc lit c)) stack
      else if (c =? "e")%char || (c =? "E")%char then scanContinue (stateE (snoc lit c)) stack
      else endNumber lit stack c
  | stateE lit =>
      if (c =? "+")%char || (c =? "-")%char then scanContinue (stateESign (snoc lit c)) stack
      else step_ESign lit stack c
  | stateESign lit => step_ESign lit stack c
  | stateE0 lit =>
      if isDigit c then scanContinue (stateE0 (snoc lit c)) stack
      else endNumber lit stack c
  | stateLiteral rest v =>
      match rest with
      | String r rest' =>
          if (c =? r)%char then
            match rest' with
            | EmptyString => endScalar v stack
            | _ => scanContinue (stateLiteral rest' v) stack
            end
          else scanError
      | EmptyString => scanError
      end
  end.

Inductive scan_result : Type :=
| scanned (v : value) (rest : string)
| scan_syntax_error
| scan_input_end (st : state) (stack : list frame).

(** [Decoder.readValue]: feed the bytes to [step] until a top-level value is
    complete. *)
Fixpoint scan (st : state) (stack : list frame) (s : string) : scan_result :=
  match s with
  | EmptyString => scan_input_end st stack
  | String c s' =>
      match step st stack c with
      | scanContinue st' stack' => scan st' stack' s'
      | scanEnd v true => scanned v s'
      | scanEnd v false => scanned v s
      | scanError => scan_syntax_error
      end
  end.

(** *** Numbers: [strconv.ParseFloat(literal, 64)] fails on overflow *)

Definition digit (c : ascii) : Z := (Z.of_nat (nat_of_ascii c) - 48)%Z.

Fixpoint span_digits (s : string) : list ascii * string :=
  match s with
  | String c s' =>
      if isDigit c
      then let '(ds, rest) := span_digits s' in (c :: ds, rest)
      else ([], s)
  | EmptyString => ([], s)
  end.

Definition decimal (ds : list ascii) : Z :=
  fold_left (fun n c => (10 * n + digit c)%Z) ds 0%Z.

(** The exponent as [strconv] accumulates it: digits are ignored once the
    value has reached 10000. *)
Definition exponent (ds : list ascii) : Z :=
  fold_left (fun e c => if (e <? 10000)%Z then (10 * e + digit c)%Z else e) ds 0%Z.

(** Values from [2^1024 - 2^970] on round to infinity. *)
Definition float64_overflow_threshold : Z := (2 ^ 1024 - 2 ^ 970)%Z.

Definition float64_overflows (literal : string) : bool :=
  let unsigned :=
    match literal with
    | String c s' => if (c =? "-")%char then s' else literal
    | EmptyString => literal
    end in
  let '(int_part, s1) := span_digits unsigned in
  let '(frac_part, s2) :=
    match s1 with
    | String c s' => if (c =? ".")%char then span_digits s' else ([], s1)
    | EmptyString => ([], s1)
    end in
  let e :=
    match s2 with
    | String _ s' =>      (* e or E *)
        match s' with
        | String c s'' =>
            if (c =? "-")%char then (- exponent (span_digits s'').1)%Z
            else if (c =? "+")%char then exponent (span_digits s'').1
            else exponent (span_digits s').1
        | EmptyString => 0%Z
        end
    | EmptyString => 0%Z
    end in
  let mantissa := decimal (int_part ++ frac_part) in
  let e10 := (e - Z.of_nat (length frac_part))%Z in
  if (mantissa =? 0)%Z then false
  else if (0 <=? e10)%Z
  then (float64_overflow_threshold <=? mantissa * 10 ^ e10)%Z
  else (float64_overflow_threshold * 10 ^ (- e10) <=? mantissa)%Z.

(** Storing a scanned value in an [interface{}]: every number must convert. *)
Fixpoint convertible (v : value) : bool :=
  match v with
  | Number literal => negb (float64_overflows literal)
  | Array elements => forallb convertible elements
  | Object members => forallb (fun kv => convertible kv.2) members
  | _ => true
  end.

(** A decoded [map[string]interface{}]: nil, or the members of an object. *)
Definition Claims : Type := option (list (string * value)).

(** [unmarshal] into a [*map[string]interface{}]: [null] leaves the map nil,
    an object fills it, any other value is a type error. *)
Definition unmarshal (v : value) : error + Claims :=
  match v with
  | Null => inr None
  | Object members =>
      if convertible v then inr (Some members) else inl json_UnmarshalTypeError
  | _ => inl json_UnmarshalTypeError
  end.

(** A [Decoder] is the reader it was made from ([NewDecoder]); what it has
    buffered counts as unread. *)
Definition Decoder : Type := Reader.

(** A scanned value is unmarshalled; the decoder goes on after it. *)
Definition decoded (dec : Decoder) (v : value) (rest : string) : error + (Claims * Decoder) :=
  match unmarshal v with
  | inl err => inl err
  | inr claims => inr (claims, {| unread := rest; failure := failure dec |})
  end.

(** [dec.Decode(&claims)] with [claims] a nil map: the error, or the decoded
    map and the decoder after it. *)
Definition Decode (dec : Decoder) : error + (Claims * Decoder) :=
  match scan stateBeginValue [] (unread dec) with
  | scanned v rest => decoded dec v rest
  | scan_syntax_error => inl json_SyntaxError
  | scan_input_end st stack =>
      match failure dec with
      | Some err => inl err
      | None =>
          (* at io.EOF the scanner is fed one space *)
          match step st stack " "%char with
          | scanEnd v _ => decoded dec v EmptyString
          | _ =>
              match st, stack with
              | stateBeginValue, [] => inl io_EOF
              | _, _ => inl io_ErrUnexpectedEOF
              end
          end
      end
  end.

(** [Decoder.peek]: the next byte that is not a space, if any is left. *)
Fixpoint peek (s : string) : option ascii :=
  match s with
  | EmptyString => None
  | String c s' => if isSpace c then peek s' else Some c
  end.

(** [dec.More()]: whether the next byte that is not a space starts another
    element. When no such byte is left the decoder has met the end of the
    stream: at [io.EOF] there is no more, and on a read error the answer is
    yes, so that the [Decode] that follows reports the error. (The decoder
    of earlier Go releases answers no on a read error as well.) *)
Definition More (dec : Decoder) : bool :=
  match peek (unread dec) with
  | Some c => negb (c =? "]")%char && negb (c =? "}")%char
  | None =>
      match failure dec with
      | None | Some io_EOF => false
      | Some _ => true
      end
  end.

End gojson.

(** ** Constants of the protocol packages *)

(** [github.com/gogo/googleapis/google/rpc]: [type Code int32]. *)
Module rpc.
Definition Code : Type := Z.
Definition OK : Code := 0%Z.
Definition NOT_FOUND : Code := 5%Z.
Definition PERMISSION_DENIED : Code := 7%Z.
Definition FAILED_PRECONDITION : Code := 9%Z.
Definition UNAUTHENTICATED : Code := 16%Z.
End rpc.

(** [envoy/type/v3]: [type StatusCode int32]; [StatusCode_Empty] is its zero
    value. *)
Module envoy_type.
Definition StatusCode : Type := Z.
Definition StatusCode_Empty : StatusCode := 0%Z.
Definition StatusCode_BadRequest : StatusCode := 400%Z.
Definition StatusCode_Unauthorized : StatusCode := 401%Z.
Definition StatusCode_Forbidden : StatusCode := 403%Z.
Definition StatusCode_NotFound : StatusCode := 404%Z.
End envoy_type.

(** [envoy/config/core/v3]: response headers. *)
Module envoy_core.
Record HeaderValue : Type := { Key : string; Value : string }.
Record HeaderValueOption : Type := { Header : HeaderValue }.
End envoy_core.

(** ** Package [service]: [pkg/service/auth.go] *)

Module service.
Import Go.

Definition X_EXT_AUTH_REASON_HEADER : string := "X-Ext-Auth-Reason".
Definition RESPONSE_MESSAGE_INVALID_REQUEST : string := "Invalid request".
Definition RESPONSE_MESSAGE_SERVICE_NOT_FOUND : string := "Service not found".

Definition statusCodeMapping : gmap rpc.Code envoy_type.StatusCode :=
  {[ rpc.FAILED_PRECONDITION := envoy_type.StatusCode_BadRequest;
     rpc.NOT_FOUND := envoy_type.StatusCode_NotFound;
     rpc.UNAUTHENTICATED := envoy_type.StatusCode_Unauthorized;
     rpc.PERMISSION_DENIED := envoy_type.StatusCode_Forbidden ]}.

(** [m[k]] on a Go map: the zero value when [k] is not a key. *)
Definition map_index (m : gmap rpc.Code envoy_type.StatusCode) (k : rpc.Code)
  : envoy_type.StatusCode :=
  default envoy_type.StatusCode_Empty (m !! k).

(** The inbound [envoy_auth.CheckRequest], down to the field the handler
    reads; every [*T] field may be nil. *)
Record AttributeContext_HttpRequest : Type := { Host : string }.
Record AttributeContext_Request : Type := { Http : option AttributeContext_HttpRequest }.
Record AttributeContext : Type := { Request : option AttributeContext_Request }.
Record CheckRequest : Type := { Attributes : option AttributeContext }.

(** [req.Attributes.Request.Http.Host]; [None] when a pointer on the path is
    nil, where Go panics. *)
Definition CheckRequest_Host (req : CheckRequest) : option string :=
  attributes ← Attributes req;
  request ← Request attributes;
  http ← Http request;
  Some (Host http).

Section handler.

(** [config.APIConfig], the metadata of an [AuthResult]
    ([map[string]interface{}]) and [structpb.Struct] are opaque here. *)
Context {APIConfig MetadataMap Struct : Type}.

(** Modelled from the spec: [AuthResult] (declared outside auth.go): a result
    code, a message, response headers and a metadata mapping. [Headers] is a
    slice of maps and [Metadata] a map; both may be nil. *)
Record AuthResult : Type := {
  Code : rpc.Code;
  Message : string;
  Headers : option (list (gmap string string));
  Metadata : option MetadataMap;
}.

(** Modelled from the spec: [AuthResult.Success]: true iff the code denotes
    the canonical allow code. *)
Definition Success (result : AuthResult) : bool :=
  bool_decide (Code result = rpc.OK).

(** Modelled from the spec: [cache.Cache]: a mapping from request host to the
    configuration that owns it; [Get] is its lookup, absent when no
    configuration is registered under the key. (The retry without the port
    is the handler's, below.) *)
Definition Cache_Get (c : gmap string APIConfig) (key : string) : option APIConfig :=
  c !! key.

Record AuthService : Type := { Cache : gmap string APIConfig }.

(** [envoy_auth.CheckResponse]. *)
Inductive isCheckResponse_HttpResponse : Type :=
| CheckResponse_OkResponse (headers : list envoy_core.HeaderValueOption)
| CheckResponse_DeniedResponse
    (status : envoy_type.StatusCode) (headers : list envoy_core.HeaderValueOption).

Record CheckResponse : Type := {
  Status_Code : Z;
  HttpResponse : isCheckResponse_HttpResponse;
  DynamicMetadata : option Struct;
}.

(** What the handler does besides returning. *)
Inductive Event : Type :=
| LogInfo (msg key value : string)
| LogInfoResult (msg key : string) (result : AuthResult)
| LogError (err : error) (msg : string)
| CacheGet (key : string)
| PipelineEvaluate (ctx : gocontext.Context) (req : CheckRequest) (config : APIConfig).

(** The collaborators of the handler: code outside auth.go that it calls. *)
Record Collaborators : Type := {
  (** [json.MarshalIndent(req, "", "  ")] of encoding/json. *)
  json_MarshalIndent : CheckRequest → error + string;
  (** [NewAuthPipeline(ctx, req, config).Evaluate()]. *)
  AuthPipeline_Evaluate : gocontext.Context → CheckRequest → APIConfig → AuthResult;
  (** [structpb.NewStruct]. *)
  structpb_NewStruct : option MetadataMap → error + Struct;
  (** Go does not specify the order in which [range] visits a map: the
      [i]-th [range] statement executed visits [m] in the order
      [rangeOrder i m], some enumeration of the entries of [m]. *)
  rangeOrder : nat → gmap string string → list (string * string);
  rangeOrder_enumerates : ∀ i m, rangeOrder i m ≡ₚ map_to_list m;
}.

Variable E : Collaborators.

Definition header (kv : string * string) : envoy_core.HeaderValueOption :=
  {| envoy_core.Header := {| envoy_core.Key := kv.1; envoy_core.Value := kv.2 |} |}.

(** The outer loop of [buildResponseHeaders], from its [i]-th iteration. *)
Fixpoint buildResponseHeaders_from (i : nat) (headers : list (gmap string string))
  : list envoy_core.HeaderValueOption :=
  match headers with
  | [] => []
  | headerMap :: rest =>
      (header <$> rangeOrder E i headerMap) ++ buildResponseHeaders_from (S i) rest
  end.

(** Ranging over a nil slice is ranging over an empty one. *)
Definition buildResponseHeaders (headers : option (list (gmap string string)))
  : list envoy_core.HeaderValueOption :=
  buildResponseHeaders_from 0 (default [] headers).

Definition buildResponseHeadersWithReason
    (authReason : string) (extraHeaders : option (list (gmap string string)))
  : list envoy_core.HeaderValueOption :=
  let headers :=
    match extraHeaders with
    | Some extra => extra
    | None => []
    end in
  let headers := headers ++ [ {[ X_EXT_AUTH_REASON_HEADER := authReason ]} ] in
  buildResponseHeaders (Some headers).

(** Returns the response and the log line written on the way. *)
Definition successResponse (self : AuthService) (authResult : AuthResult)
  : list Event * CheckResponse :=
  let '(log, dynamicMetadata) :=
    match structpb_NewStruct E (Metadata authResult) with
    | inl err => ([LogError err "failed to create dynamic metadata"], None)
    | inr s => ([], Some s)
    end in
  (log,
   {| Status_Code := rpc.OK;
      HttpResponse := CheckResponse_OkResponse (buildResponseHeaders (Headers authResult));
      DynamicMetadata := dynamicMetadata |}).

Definition deniedResponse (self : AuthService) (authResult : AuthResult) : CheckResponse :=
  let code := Code authResult in
  {| Status_Code := code;
     HttpResponse :=
       CheckResponse_DeniedResponse
         (map_index statusCodeMapping code)
         (buildResponseHeadersWithReason (Message authResult) (Headers authResult));
     DynamicMetadata := None |}.

(** Lines 54-61 of [Check]: the configuration for [host], with the cache
    reads made for it. *)
Definition Check_apiConfig (self : AuthService) (host : string)
  : list Event * Outcome (option APIConfig) :=
  match Cache_Get (Cache self) host with
  | Some apiConfig => ([CacheGet host], Returned (Some apiConfig))
  | None =>
      if strings_Contains host ":" then
        match strings_Split host ":" with
        | splitHost0 :: _ =>
            ([CacheGet host; CacheGet splitHost0],
             Returned (Cache_Get (Cache self) splitHost0))
        | [] => ([CacheGet host], Panicked "index out of range [0] with length 0")
        end
      else ([CacheGet host], Returned None)
  end.

(** [Check] returns [(response, nil)] on every path that returns. *)
Definition Check (self : AuthService) (ctx : gocontext.Context) (req : CheckRequest)
  : list Event * Outcome (CheckResponse * option error) :=
  match json_MarshalIndent E req with
  | inl _ =>
      ([], Returned
             (deniedResponse self
                {| Code := rpc.FAILED_PRECONDITION;
                   Message := RESPONSE_MESSAGE_INVALID_REQUEST;
                   Headers := None; Metadata := None |}, None))
  | inr reqJSON =>
      let log := [LogInfo "Check()" "reqJSON" reqJSON] in
      match CheckRequest_Host req with
      | None => (log, Panicked "invalid memory address or nil pointer dereference")
      | Some host =>
          match Check_apiConfig self host with
          | (reads, Panicked reason) => (log ++ reads, Panicked reason)
          | (reads, Returned None) =>
              (log ++ reads,
               Returned
                 (deniedResponse self
                    {| Code := rpc.NOT_FOUND;
                       Message := RESPONSE_MESSAGE_SERVICE_NOT_FOUND;
                       Headers := None; Metadata := None |}, None))
          | (reads, Returned (Some apiConfig)) =>
              let result := AuthPipeline_Evaluate E ctx req apiConfig in
              let trace :=
                log ++ reads ++
                [PipelineEvaluate ctx req apiConfig; LogInfoResult "Check()" "result" result] in
              if Success result then
                let '(log', response) := successResponse self result in
                (trace ++ log', Returned (response, None))
              else
                (trace, Returned (deniedResponse self result, None))
          end
      end
  end.

End handler.

End service.

(** ** [net/http]: requests and responses as the evaluator uses them *)

Module http.
Import Go.

(** [http.Header]: values by key. *)
Definition Header : Type := gmap string (list string).

Record Request : Type := {
  req_Context : gocontext.Context;
  req_Method : string;
  req_URL : string;
  req_Header : Header;
  req_Body : option string;          (* nil, or the bytes of the body *)
}.

Record Response : Type := {
  resp_Header : Header;
  resp_Body : Reader;
}.

End http.

(** ** Package [metadata]: the generic HTTP evaluator *)

Module metadata.
Import Go.

(** What [Call] returns as its [interface{}]: nil, a string, one decoded map
    or the slice of decoded maps. *)
Inductive Interface : Type :=
| value_nil
| value_string (s : string)
| value_map (claims : gojson.Claims)
| value_maps (elements : list gojson.Claims).

(** What [Call] does besides returning. *)
Inductive Event : Type :=
| LogInfo (msg method url : string) (headers : http.Header) (body : option string)
| HttpDo (req : http.Request)        (* http.DefaultClient.Do(req) *)
| BodyClose.                         (* resp.Body.Close() *)

(** Modelled from the spec: [context.CheckContext] (pkg/context): fails when
    the scope is already cancelled or expired. *)
Definition CheckContext (ctx : gocontext.Context) : option error :=
  match gocontext.state ctx with
  | gocontext.Active => None
  | gocontext.Canceled => Some context_Canceled
  | gocontext.DeadlineExceeded => Some context_DeadlineExceeded
  end.

(** [io.ReadAll]. *)
Definition io_ReadAll (r : Reader) : string * option error :=
  (unread r, failure r).

Section evaluator.

(** [interface{}] values of templates, [json.JSONValue], [auth.AuthPipeline]
    and [auth.AuthCredentials] are opaque here. *)
Context {any JSONValue AuthPipeline Credentials : Type}.

(** [json.JSONProperty]. *)
Record JSONProperty : Type := {
  Name : string;
  Value : JSONValue;
}.

Record GenericHttp : Type := {
  Endpoint : string;
  Method : string;
  Body : option JSONValue;
  Parameters : list JSONProperty;
  Headers : list JSONProperty;
  ContentType : string;
  SharedSecret : string;
  AuthCredentials : option Credentials;      (* the embedded auth.AuthCredentials *)
}.

(** The collaborators of the evaluator: code outside generic_http.go. *)
Record Collaborators : Type := {
  (** [pipeline.GetAuthorizationJSON()]. *)
  GetAuthorizationJSON : AuthPipeline → string;
  (** [json.ReplaceJSONPlaceholders(source, authJSON)]. *)
  ReplaceJSONPlaceholders : string → string → string;
  (** [value.ResolveFor(authJSON)]. *)
  ResolveFor : JSONValue → string → any;
  (** [json.StringifyJSON(data)]. *)
  StringifyJSON : any → error + string;
  (** [gojson.Marshal(data)] of encoding/json. *)
  gojson_Marshal : gmap string any → error + string;
  (** [url.Values.Encode]. *)
  url_Values_Encode : gmap string (list string) → string;
  (** [fmt.Sprintf("%s", v)]. *)
  fmt_Sprintf_s : any → string;
  (** [url.Parse], for the error it may report. *)
  url_Parse : string → option error;
  (** [h.BuildRequestWithCredentials(ctx, endpoint, method, secret, body)],
      of the embedded credentials. *)
  BuildRequestWithCredentials :
    Credentials → gocontext.Context → string → string → string → option string →
    error + http.Request;
  (** [textproto.CanonicalMIMEHeaderKey]. *)
  CanonicalMIMEHeaderKey : string → string;
  (** [http.DefaultClient.Do(req)]: the outbound call. *)
  http_DefaultClient_Do : http.Request → error + http.Response;
}.

Variable E : Collaborators.

(** [http.NewRequestWithContext(ctx, method, url, body)], called with a
    non-nil context and method GET or POST: only the URL can be refused. *)
Definition http_NewRequestWithContext
    (ctx : gocontext.Context) (method url : string) (body : option string)
  : error + http.Request :=
  match url_Parse E url with
  | Some err => inl err
  | None =>
      inr {| http.req_Context := ctx; http.req_Method := method; http.req_URL := url;
             http.req_Header := ∅; http.req_Body := body |}
  end.

(** [req.Header.Set(key, value)]. *)
Definition Header_Set (req : http.Request) (key value : string) : http.Request :=
  {| http.req_Context := http.req_Context req;
     http.req_Method := http.req_Method req;
     http.req_URL := http.req_URL req;
     http.req_Header := <[CanonicalMIMEHeaderKey E key := [value]]> (http.req_Header req);
     http.req_Body := http.req_Body req |}.

(** The loop of [buildRequestBody] over the resolved parameters. Every
    failure is the same error and the keys are distinct, so the order of the
    visit does not show in the result. *)
Fixpoint formValues (entries : list (string * any)) (formData : gmap string (list string))
  : option (gmap string (list string)) :=
  match entries with
  | [] => Some formData
  | (key, value) :: rest =>
      match StringifyJSON E value with
      | inl _ => None
      | inr valueAsStr => formValues rest (<[key := [valueAsStr]]> formData)
      end
  end.

(** Returns the request body (an [io.Reader] over a buffer) or an error. *)
Definition buildRequestBody (h : GenericHttp) (authData : string) : error + option string :=
  match Body h with
  | Some body =>
      match StringifyJSON E (ResolveFor E body authData) with
      | inl _ => inl (fmt_Errorf "failed to encode http request")
      | inr body => inr (Some body)
      end
  | None =>
      let data : gmap string any :=
        foldl (fun data param => <[Name param := ResolveFor E (Value param) authData]> data)
              ∅ (Parameters h) in
      if (ContentType h =? "application/x-www-form-urlencoded")%string then
        match formValues (map_to_list data) ∅ with
        | None => inl (fmt_Errorf "failed to encode http request")
        | Some formData => inr (Some (url_Values_Encode E formData))
        end
      else if (ContentType h =? "application/json")%string then
        match gojson_Marshal E data with
        | inl err => inl err
        | inr dataJSON => inr (Some dataJSON)
        end
      else inl (fmt_Errorf "unsupported content-type")
  end.

(** Lines 181-198 of [Call]: the content type and body of the request, by
    method. *)
Definition Call_requestBody (h : GenericHttp) (authJSON : string)
  : error + (string * option string) :=
  let method := Method h in
  if (method =? "GET")%string then inr ("text/plain", None)
  else if (method =? "POST")%string then
    match buildRequestBody h authJSON with
    | inl err => inl err
    | inr requestBody => inr (ContentType h, requestBody)
    end
  else inl (fmt_Errorf "unsupported method").

(** Lines 243-252 of [Call]: decode, append, and go on while the decoder
    reports more. [None] when [fuel] iterations were not enough. *)
Fixpoint Call_decode (fuel : nat) (decoder : gojson.Decoder) (elements : list gojson.Claims)
  : option (error + list gojson.Claims) :=
  match fuel with
  | O => None
  | S fuel' =>
      match gojson.Decode decoder with
      | inl err => Some (inl err)
      | inr (claims, decoder') =>
          let elements := elements ++ [claims] in
          if gojson.More decoder' then Call_decode fuel' decoder' elements
          else Some (inr elements)
      end
  end.

(** Lines 237-269 of [Call]: the response parsed as JSON or as text, with
    the deferred closes of the body. *)
Definition Call_response (resp : http.Response)
  : option (list Event * (Interface * option error)) :=
  let contentTypes := default [] (http.resp_Header resp !! "Content-Type") in
  if strings_Contains (strings_Join contentTypes ";") "application/json" then
    let decoder : gojson.Decoder := http.resp_Body resp in
    match Call_decode (S (String.length (unread decoder))) decoder [] with
    | None => None
    | Some (inl err) => Some ([BodyClose], (value_nil, Some err))
    | Some (inr elements) =>
        Some ([BodyClose],
              (match elements with
               | _ :: _ :: _ => value_maps elements
               | [claims] => value_map claims
               | [] => value_nil
               end, None))
    end
  else
    match io_ReadAll (http.resp_Body resp) with
    | (_, Some err) => Some ([BodyClose; BodyClose], (value_nil, Some err))
    | (str, None) => Some ([BodyClose; BodyClose], (value_string str, None))
    end.

(** [Call] returns [(value, error)]; [None] only if the decoding loop were
    not to end (it always ends, see [Call_returns]). *)
Definition Call (h : GenericHttp) (pipeline : AuthPipeline) (ctx : gocontext.Context)
  : option (list Event * (Interface * option error)) :=
  match CheckContext ctx with
  | Some err => Some ([], (value_nil, Some err))
  | None =>
      let authJSON := GetAuthorizationJSON E pipeline in
      let endpoint := ReplaceJSONPlaceholders E (Endpoint h) authJSON in
      let method := Method h in
      match Call_requestBody h authJSON with
      | inl err => Some ([], (value_nil, Some err))
      | inr (contentType, requestBody) =>
          let built :=
            match AuthCredentials h with
            | Some credentials =>
                BuildRequestWithCredentials E credentials ctx endpoint method
                  (SharedSecret h) requestBody
            | None => http_NewRequestWithContext ctx method endpoint requestBody
            end in
          match built with
          | inl err => Some ([], (value_nil, Some err))
          | inr req =>
              let req :=
                foldl (fun req header =>
                         Header_Set req (Name header)
                           (fmt_Sprintf_s E (ResolveFor E (Value header) authJSON)))
                      req (Headers h) in
              let req := Header_Set req "Content-Type" contentType in
              let log :=
                if gocontext.logger_V1_Enabled ctx
                then [LogInfo "sending request" method endpoint (http.req_Header req) requestBody]
                else [] in
              match http_DefaultClient_Do E req with
              | inl err => Some (log ++ [HttpDo req], (value_nil, Some err))
              | inr resp =>
                  match Call_response resp with
                  | None => None
                  | Some (closes, result) => Some (log ++ [HttpDo req] ++ closes, result)
                  end
              end
          end
      end
  end.

End evaluator.

End metadata.

(** ** Notions of the specification *)

(** The substring before the first colon (the whole string when it has no
    colon). *)
Fixpoint before_colon (s : string) : string :=
  match s with
  | EmptyString => EmptyString
  | String c s' => if (c =? ":")%char then EmptyString else String c (before_colon s')
  end.

(** The maps a decoder yields when it is asked to decode for as long as it
    reports more, in the order they are decoded. *)
Inductive decodes : gojson.Decoder → list gojson.Claims → Prop :=
| decodes_last (decoder decoder' : gojson.Decoder) (claims : gojson.Claims) :
    gojson.Decode decoder = inr (claims, decoder') →
    gojson.More decoder' = false →
    decodes decoder [claims]
| decodes_more (decoder decoder' : gojson.Decoder) (claims : gojson.Claims)
               (rest : list gojson.Claims) :
    gojson.Decode decoder = inr (claims, decoder') →
    gojson.More decoder' = true →
    decodes decoder' rest →
    decodes decoder (claims :: rest).

(** The requests handed to the HTTP client, in order. *)
Definition requests_sent (trace : list metadata.Event) : list http.Request :=
  omap (fun ev => match ev with metadata.HttpDo req => Some req | _ => None end) trace.

(** The content type [Call] computes for the request: text/plain for GET,
    the configured one otherwise. *)
Definition computed_content_type {JSONValue Credentials : Type}
    (h : metadata.GenericHttp (JSONValue := JSONValue) (Credentials := Credentials))
  : string :=
  if (metadata.Method h =? "GET")%string then "text/plain" else metadata.ContentType h.

(** ** Sample instances

    Concrete collaborators, caches and requests on which the statements
    below are exercised. *)

Module sample.
Import Go.

(** A check request for [host]. *)
Definition request_for (host : string) : service.CheckRequest :=
  {| service.Attributes :=
       Some {| service.Request :=
                 Some {| service.Http := Some {| service.Host := host |} |} |} |}.

(** A live scope with verbose logging off. *)
Definition live : gocontext.Context :=
  {| gocontext.state := gocontext.Active; gocontext.logger_V1_Enabled := false |}.

Definition cancelled : gocontext.Context :=
  {| gocontext.state := gocontext.Canceled; gocontext.logger_V1_Enabled := false |}.

(** Configurations are named by a string; the pipeline allows every request. *)
Definition allow : service.AuthResult (MetadataMap := unit) :=
  {| service.Code := rpc.OK; service.Message := EmptyString;
     service.Headers := None; service.Metadata := None |}.

Definition handler_collaborators (marshal : service.CheckRequest → error + string)
  : service.Collaborators (APIConfig := string) (MetadataMap := unit) (Struct := unit) :=
  {| service.json_MarshalIndent := marshal;
     service.AuthPipeline_Evaluate := fun _ _ _ => allow;
     service.structpb_NewStruct := fun _ => inr tt;
     service.rangeOrder := fun _ m => map_to_list m;
     service.rangeOrder_enumerates := fun _ m => Permutation_refl (map_to_list m) |}.

(** Serialization that succeeds, and serialization that fails as
    encoding/json does on a NaN number in the request's metadata. *)
Definition marshal_ok : service.CheckRequest → error + string :=
  fun _ => inr "{}".

Definition marshal_fails : service.CheckRequest → error + string :=
  fun _ => inl (foreign_error "json" "unsupported value: NaN").

(** A cache with a configuration for the bare host and another one for the
    host with a port. *)
Definition two_configs : service.AuthService (APIConfig := string) :=
  {| service.Cache := {[ "api" := "bare"; "api:8080" := "with-port" ]} |}.

Definition no_configs : service.AuthService (APIConfig := string) :=
  {| service.Cache := ∅ |}.

(** A cache with a configuration for an IPv6 literal. *)
Definition ipv6_config : service.AuthService (APIConfig := string) :=
  {| service.Cache := {[ "[::1]" := "v6" ]} |}.

(** JSON text is written with apostrophes for its double quotes. *)
Definition json_text (s : string) : string :=
  string_of_list_ascii
    (map (fun c => if (c =? "'")%char then gojson.quote else c) (list_ascii_of_string s)).

(** A response with the given content type and body, read without error. *)
Definition response (contentType body : string) : http.Response :=
  {| http.resp_Header := {[ "Content-Type" := [contentType] ]};
     http.resp_Body := {| unread := body; failure := None |} |}.

(** Collaborators of the evaluator: templates are strings that resolve to
    themselves, the pipeline is its authorization JSON, credentials name the
    header that carries the secret, and the network answers [answer]. *)
Definition evaluator_collaborators (answer : http.Request → error + http.Response)
  : metadata.Collaborators (any := string) (JSONValue := string)
                           (AuthPipeline := string) (Credentials := string) :=
  {| metadata.GetAuthorizationJSON := fun pipeline => pipeline;
     metadata.ReplaceJSONPlaceholders := fun source _ => source;
     metadata.ResolveFor := fun value _ => value;
     metadata.StringifyJSON := fun value => inr value;
     metadata.gojson_Marshal := fun _ => inr "{}";
     metadata.url_Values_Encode := fun _ => EmptyString;
     metadata.fmt_Sprintf_s := fun value => value;
     metadata.url_Parse := fun _ => None;
     metadata.BuildRequestWithCredentials :=
       fun credentials ctx endpoint method secret body =>
         inr {| http.req_Context := ctx; http.req_Method := method;
                http.req_URL := endpoint;
                http.req_Header := {[ credentials := [secret] ]};
                http.req_Body := body |};
     metadata.CanonicalMIMEHeaderKey := fun key => key;
     metadata.http_DefaultClient_Do := answer |}.

(** An evaluator for [method], configured with a JSON content type, a
    Content-Type header of its own and two parameters. *)
Definition evaluator (method contentType : string) (credentials : option string)
  : metadata.GenericHttp (JSONValue := string) (Credentials := string) :=
  {| metadata.Endpoint := "http://metadata.example/info";
     metadata.Method := method;
     metadata.Body := None;
     metadata.Parameters :=
       [ {| metadata.Name := "a"; metadata.Value := "1" |};
         {| metadata.Name := "b"; metadata.Value := "2" |} ];
     metadata.Headers :=
       [ {| metadata.Name := "Content-Type"; metadata.Value := "application/xml" |};
         {| metadata.Name := "X-Trace"; metadata.Value := "on" |} ];
     metadata.ContentType := contentType;
     metadata.SharedSecret := "s3cr3t";
     metadata.AuthCredentials := credentials |}.

(** Collaborators of the handler with a chosen pipeline verdict and a chosen
    conversion of the metadata. *)
Definition handler_collaborators_with
    (marshal : service.CheckRequest → error + string)
    (verdict : service.AuthResult (MetadataMap := unit))
    (newStruct : option unit → error + unit)
  : service.Collaborators (APIConfig := string) (MetadataMap := unit) (Struct := unit) :=
  {| service.json_MarshalIndent := marshal;
     service.AuthPipeline_Evaluate := fun _ _ _ => verdict;
     service.structpb_NewStruct := newStruct;
     service.rangeOrder := fun _ m => map_to_list m;
     service.rangeOrder_enumerates := fun _ m => Permutation_refl (map_to_list m) |}.

(** A verdict that allows the request and adds two headers. *)
Definition allow_with_headers : service.AuthResult (MetadataMap := unit) :=
  {| service.Code := rpc.OK; service.Message := EmptyString;
     service.Headers := Some [ {[ "X-User" := "jane" ]}; {[ "X-Role" := "admin" ]} ];
     service.Metadata := Some tt |}.

(** A verdict that denies the request as unauthenticated. *)
Definition deny_unauthenticated : service.AuthResult (MetadataMap := unit) :=
  {| service.Code := rpc.UNAUTHENTICATED; service.Message := "credential not found";
     service.Headers := Some [ {[ "WWW-Authenticate" := "Bearer" ]} ];
     service.Metadata := None |}.

(** A request without its attributes. *)
Definition request_without_attributes : service.CheckRequest :=
  {| service.Attributes := None |}.

(** A live scope whose logger is enabled at level 1. *)
Definition verbose : gocontext.Context :=
  {| gocontext.state := gocontext.Active; gocontext.logger_V1_Enabled := true |}.

(** The sample evaluator with its parameters in the other order, with a
    third parameter that overwrites none and is overwritten by [b], and with
    a body template. *)
Definition evaluator_swapped (method contentType : string)
  : metadata.GenericHttp (JSONValue := string) (Credentials := string) :=
  {| metadata.Endpoint := "http://metadata.example/info";
     metadata.Method := method;
     metadata.Body := None;
     metadata.Parameters :=
       [ {| metadata.Name := "b"; metadata.Value := "2" |};
         {| metadata.Name := "a"; metadata.Value := "1" |} ];
     metadata.Headers :=
       [ {| metadata.Name := "Content-Type"; metadata.Value := "application/xml" |};
         {| metadata.Name := "X-Trace"; metadata.Value := "on" |} ];
     metadata.ContentType := contentType;
     metadata.SharedSecret := "s3cr3t";
     metadata.AuthCredentials := None |}.

Definition evaluator_with_body (method contentType body : string)
    (parameters : list (metadata.JSONProperty (JSONValue := string)))
  : metadata.GenericHttp (JSONValue := string) (Credentials := string) :=
  {| metadata.Endpoint := "http://metadata.example/info";
     metadata.Method := method;
     metadata.Body := Some body;
     metadata.Parameters := parameters;
     metadata.Headers :=
       [ {| metadata.Name := "Content-Type"; metadata.Value := "application/xml" |};
         {| metadata.Name := "X-Trace"; metadata.Value := "on" |} ];
     metadata.ContentType := contentType;
     metadata.SharedSecret := "s3cr3t";
     metadata.AuthCredentials := None |}.

(** The request the sample POST evaluator sends. *)
Definition post_request (ctx : gocontext.Context) : http.Request :=
  {| http.req_Context := ctx; http.req_Method := "POST";
     http.req_URL := "http://metadata.example/info";
     http.req_Header := {[ "X-Trace" := ["on"]; "Content-Type" := ["application/json"] ]};
     http.req_Body := Some "{}" |}.

End sample.

(** * Properties *)

(** ** The [strings] helpers *)

Section strings_facts.
Import Go.

Lemma append_cons (c : ascii) (s t : string) : String c s +:+ t = String c (s +:+ t).
Proof. reflexivity. Qed.

Lemma append_empty_r (s : string) : s +:+ EmptyString = s.
Proof.
  induction s as [|c s IH]; [reflexivity|]. by rewrite append_cons, IH.
Qed.

Lemma append_assoc (a b c : string) : (a +:+ b) +:+ c = a +:+ (b +:+ c).
Proof.
  induction a as [|x a IH]; [reflexivity|]. by rewrite !append_cons, IH.
Qed.

Lemma HasPrefix_colon (c : ascii) (s : string) :
  strings_HasPrefix (String c s) ":" = (c =? ":")%char.
Proof.
  cbn [strings_HasPrefix]. rewrite andb_true_r. apply Ascii.eqb_sym.
Qed.

Lemma Contains_colon_cons (c : ascii) (s : string) :
  strings_Contains (String c s) ":" = (c =? ":")%char || strings_Contains s ":".
Proof.
  change (strings_Contains (String c s) ":")
    with (strings_HasPrefix (String c s) ":" || strings_Contains s ":").
  by rewrite HasPrefix_colon.
Qed.

(** Splitting at colons starts with the piece before the first colon. *)
Lemma split_scan_colon_head (s cur : string) :
  ∃ pieces, split_scan ":" 0 cur s = (cur +:+ before_colon s) :: pieces.
Proof.
  revert cur. induction s as [|c s IH]; intros cur.
  - exists []. simpl. by rewrite append_empty_r.
  - cbn [split_scan before_colon]. rewrite HasPrefix_colon.
    destruct (c =? ":")%char.
    + eexists. by rewrite append_empty_r.
    + destruct (IH (cur +:+ String c EmptyString)) as [pieces ->].
      exists pieces. by rewrite append_assoc.
Qed.

Lemma strings_Split_colon_head (s : string) :
  ∃ pieces, strings_Split s ":" = before_colon s :: pieces.
Proof. apply (split_scan_colon_head s EmptyString). Qed.

Lemma Contains_colon_append (h p : string) :
  strings_Contains (h +:+ ":" +:+ p) ":" = true.
Proof.
  induction h as [|c h IH].
  - reflexivity.
  - rewrite append_cons, Contains_colon_cons, IH. apply orb_true_r.
Qed.

Lemma before_colon_append (h p : string) :
  strings_Contains h ":" = false → before_colon (h +:+ ":" +:+ p) = h.
Proof.
  induction h as [|c h IH]; intros Hno.
  - reflexivity.
  - rewrite Contains_colon_cons in Hno. apply orb_false_elim in Hno as [Hc Hh].
    rewrite append_cons. cbn [before_colon]. rewrite Hc. by rewrite IH.
Qed.

Lemma before_colon_no_colon (h : string) :
  strings_Contains h ":" = false → before_colon h = h.
Proof.
  induction h as [|c h IH]; intros Hno; [reflexivity|].
  rewrite Contains_colon_cons in Hno. apply orb_false_elim in Hno as [Hc Hh].
  cbn [before_colon]. rewrite Hc. by rewrite IH.
Qed.

End strings_facts.

(** ** The check handler *)

Section check_properties.
Import Go service.

Context {APIConfig MetadataMap Struct : Type}.
Implicit Types E : Collaborators (APIConfig := APIConfig) (MetadataMap := MetadataMap)
                                 (Struct := Struct).
Implicit Types self : AuthService (APIConfig := APIConfig).
Implicit Types result : AuthResult (MetadataMap := MetadataMap).

Abbreviation Check_apiConfig := (service.Check_apiConfig (MetadataMap := MetadataMap)).

Lemma buildResponseHeaders_from_app E (i : nat) (l1 l2 : list (gmap string string)) :
  buildResponseHeaders_from E i (l1 ++ l2)
  = buildResponseHeaders_from E i l1 ++ buildResponseHeaders_from E (i + length l1) l2.
Proof.
  revert i. induction l1 as [|m l1 IH]; intros i; cbn [buildResponseHeaders_from app length].
  - by rewrite Nat.add_0_r.
  - rewrite IH, <- app_assoc. do 3 f_equal. lia.
Qed.

(** A map with one entry is visited in the only possible order. *)
Lemma rangeOrder_singleton E (i : nat) (key value : string) :
  rangeOrder E i {[ key := value ]} = [(key, value)].
Proof.
  pose proof (rangeOrder_enumerates E i {[ key := value ]}) as Hperm.
  rewrite map_to_list_singleton in Hperm.
  by apply Permutation_singleton_r in Hperm.
Qed.

Lemma buildResponseHeadersWithReason_last E (authReason : string)
    (extraHeaders : option (list (gmap string string))) :
  buildResponseHeadersWithReason E authReason extraHeaders
  = buildResponseHeaders E extraHeaders ++ [header (X_EXT_AUTH_REASON_HEADER, authReason)].
Proof.
  unfold buildResponseHeadersWithReason, buildResponseHeaders. cbv zeta.
  assert (match extraHeaders with Some extra => extra | None => [] end
          = default [] extraHeaders) as -> by (by destruct extraHeaders).
  change (default [] (Some ?l)) with l. rewrite buildResponseHeaders_from_app.
  cbn [buildResponseHeaders_from]. by rewrite rangeOrder_singleton, app_nil_r.
Qed.

(** The rendering keeps the maps in slice order; the entries of one map come
    in the order of its visit. *)
Lemma buildResponseHeaders_from_pieces E (i : nat) (headers : list (gmap string string)) :
  ∃ pieces,
    buildResponseHeaders_from E i headers = concat pieces ∧
    Forall2 (fun headerMap piece => piece ≡ₚ header <$> map_to_list headerMap)
            headers pieces.
Proof.
  revert i. induction headers as [|m headers IH]; intros i.
  - exists []. split; [reflexivity | constructor].
  - destruct (IH (S i)) as (pieces & Heq & Hall).
    exists ((header <$> rangeOrder E i m) :: pieces). split.
    + cbn [buildResponseHeaders_from concat]. by rewrite Heq.
    + constructor; [|done]. apply fmap_Permutation, rangeOrder_enumerates.
Qed.

(** C3. The status of a denied response is looked up in a table that maps
    FAILED_PRECONDITION to 400, NOT_FOUND to 404, UNAUTHENTICATED to 401 and
    PERMISSION_DENIED to 403; for any other code the lookup yields the zero
    status (StatusCode_Empty) and the response is built all the same. *)
Theorem status_mapping_total :
  map_index statusCodeMapping rpc.FAILED_PRECONDITION = 400%Z ∧
  map_index statusCodeMapping rpc.NOT_FOUND = 404%Z ∧
  map_index statusCodeMapping rpc.UNAUTHENTICATED = 401%Z ∧
  map_index statusCodeMapping rpc.PERMISSION_DENIED = 403%Z ∧
  (∀ code : rpc.Code,
     code ≠ rpc.FAILED_PRECONDITION → code ≠ rpc.NOT_FOUND →
     code ≠ rpc.UNAUTHENTICATED → code ≠ rpc.PERMISSION_DENIED →
     map_index statusCodeMapping code = envoy_type.StatusCode_Empty) ∧
  (∀ E self result,
     ∃ headers,
       deniedResponse E self result
       = {| Status_Code := Code result;
            HttpResponse :=
              CheckResponse_DeniedResponse
                (map_index statusCodeMapping (Code result)) headers;
            DynamicMetadata := None |}).
Proof.
  repeat split; try reflexivity.
  - intros code H1 H2 H3 H4. unfold map_index, statusCodeMapping.
    by rewrite !lookup_insert_ne, lookup_singleton_ne.
  - intros E self result. eexists. reflexivity.
Qed.

(** C9. The headers of a denied response are the headers the result
    accumulated (the maps in slice order, the entries of each map in the
    order of its visit: the rendering of the success path) followed by one
    X-Ext-Auth-Reason header carrying the message; with no accumulated
    header (a nil or empty slice) the reason header is the only one. *)
Theorem denied_headers_end_with_reason E self result :
  ∃ rendered,
    HttpResponse (deniedResponse E self result)
    = CheckResponse_DeniedResponse
        (map_index statusCodeMapping (Code result))
        (rendered ++ [header (X_EXT_AUTH_REASON_HEADER, Message result)]) ∧
    rendered = buildResponseHeaders E (Headers result) ∧
    (∃ pieces,
       rendered = concat pieces ∧
       Forall2 (fun headerMap piece => piece ≡ₚ header <$> map_to_list headerMap)
               (default [] (Headers result)) pieces) ∧
    (default [] (Headers result) = [] → rendered = []).
Proof.
  exists (buildResponseHeaders E (Headers result)). split; [|split; [done|split]].
  - cbn [deniedResponse HttpResponse]. by rewrite buildResponseHeadersWithReason_last.
  - apply buildResponseHeaders_from_pieces.
  - unfold buildResponseHeaders. by intros ->.
Qed.

(** The denials the handler builds itself. *)
Lemma deniedResponse_plain E self (code : rpc.Code) (message : string) :
  deniedResponse E self
    {| Code := code; Message := message; Headers := None; Metadata := None |}
  = {| Status_Code := code;
       HttpResponse :=
         CheckResponse_DeniedResponse (map_index statusCodeMapping code)
           [header (X_EXT_AUTH_REASON_HEADER, message)];
       DynamicMetadata := None |}.
Proof.
  unfold deniedResponse. cbn [Code Message Headers].
  by rewrite buildResponseHeadersWithReason_last.
Qed.

(** What lines 54-61 compute: the exact entry if there is one, else, for a
    host with a colon, the entry of the substring before its first colon. *)
Lemma Check_apiConfig_spec self (host : string) :
  Check_apiConfig self host
  = match Cache self !! host with
    | Some config => ([CacheGet host], Returned (Some config))
    | None =>
        if strings_Contains host ":"
        then ([CacheGet host; CacheGet (before_colon host)],
              Returned (Cache self !! before_colon host))
        else ([CacheGet host], Returned None)
    end.
Proof.
  unfold service.Check_apiConfig, Cache_Get.
  destruct (Cache self !! host); [reflexivity|].
  destruct (strings_Contains host ":"); [|reflexivity].
  by destruct (strings_Split_colon_head host) as [pieces ->].
Qed.

(** The lookup never panics: a split always has a first piece. *)
Lemma Check_apiConfig_returns self (host : string) :
  ∃ found, (Check_apiConfig self host).2 = Returned found.
Proof.
  rewrite Check_apiConfig_spec.
  destruct (Cache self !! host); [by eexists|].
  destruct (strings_Contains host ":"); by eexists.
Qed.

(** C8. When the serialization of the request for the log fails, the
    handler returns (it does not panic, and reports no error) a denied
    response with code FAILED_PRECONDITION, status 400 and the reason header
    "Invalid request"; nothing else is done. *)
Theorem serialization_failure_is_invalid_request E self ctx req (err : error) :
  json_MarshalIndent E req = inl err →
  Check E self ctx req
  = ([], Returned
           ({| Status_Code := 9%Z;
               HttpResponse :=
                 CheckResponse_DeniedResponse 400%Z
                   [header ("X-Ext-Auth-Reason", "Invalid request")];
               DynamicMetadata := None |}, None)).
Proof.
  intros Hmarshal. unfold Check. rewrite Hmarshal.
  by rewrite deniedResponse_plain.
Qed.

(** C1, as amended. For a request that serializes and whose host has no
    configuration (neither under the host itself nor, when the host has a
    colon, under the substring before its first colon), the handler returns
    a denied response with code NOT_FOUND, status 404 and the reason header
    "Service not found"; it has logged the request and read the cache, and
    has not run the pipeline. *)
Theorem unknown_host_is_not_found E self ctx req (reqJSON host : string) :
  json_MarshalIndent E req = inr reqJSON →
  CheckRequest_Host req = Some host →
  Cache self !! host = None →
  (strings_Contains host ":" = true → Cache self !! before_colon host = None) →
  ∃ trace,
    Check E self ctx req
    = (trace, Returned
                ({| Status_Code := 5%Z;
                    HttpResponse :=
                      CheckResponse_DeniedResponse 404%Z
                        [header ("X-Ext-Auth-Reason", "Service not found")];
                    DynamicMetadata := None |}, None)) ∧
    trace = LogInfo "Check()" "reqJSON" reqJSON :: CacheGet host ::
            (if strings_Contains host ":" then [CacheGet (before_colon host)] else []) ∧
    ∀ ctx' req' config, PipelineEvaluate ctx' req' config ∉ trace.
Proof.
  intros Hmarshal Hhost Hexact Hbare. eexists. split; [|split; [reflexivity|]].
  - unfold Check. rewrite Hmarshal, Hhost, Check_apiConfig_spec, Hexact.
    destruct (strings_Contains host ":").
    + rewrite Hbare by done. by rewrite deniedResponse_plain.
    + by rewrite deniedResponse_plain.
  - intros ctx' req' config Hin.
    destruct (strings_Contains host ":"); set_solver.
Qed.

(** C2, as amended. When [h] has a configuration and no colon, and nothing
    is registered under [h:p], the handler resolves [h:p] to the
    configuration of [h]: the lookup yields it, as it does for [h], and a
    request for [h:p] that serializes is evaluated against it. *)
Theorem port_suffix_resolves_bare_host E self ctx (h p : string) (config : APIConfig) :
  Cache self !! h = Some config →
  strings_Contains h ":" = false →
  Cache self !! (h +:+ ":" +:+ p) = None →
  (Check_apiConfig self (h +:+ ":" +:+ p)).2 = Returned (Some config) ∧
  (Check_apiConfig self h).2 = Returned (Some config) ∧
  ∀ req reqJSON,
    json_MarshalIndent E req = inr reqJSON →
    CheckRequest_Host req = Some (h +:+ ":" +:+ p) →
    PipelineEvaluate ctx req config ∈ (Check E self ctx req).1.
Proof.
  intros Hh Hno Hport.
  assert (Check_apiConfig self (h +:+ ":" +:+ p)
          = ([CacheGet (h +:+ ":" +:+ p); CacheGet h], Returned (Some config))) as Hresolved.
  { rewrite Check_apiConfig_spec, Hport, Contains_colon_append.
    by rewrite before_colon_append, Hh. }
  split; [by rewrite Hresolved|]. split.
  - by rewrite Check_apiConfig_spec, Hh.
  - intros req reqJSON Hmarshal Hhost. unfold Check.
    rewrite Hmarshal, Hhost, Hresolved.
    destruct (Success _); [destruct (successResponse _ _ _)|]; set_solver.
Qed.

(** Whether the request serializes or not: the handler reads the cache a
    second time (with the host stripped of its port) only after the exact
    read found nothing; when a configuration [config] is registered under
    the host as given, the lookup yields it after that single read, so every
    cache read of the handler is for the host as given, every pipeline it
    runs is run against [config], and it does run one when the request
    serializes. *)
Theorem exact_host_takes_precedence E self ctx req (host : string) :
  CheckRequest_Host req = Some host →
  ((Check_apiConfig self host).1 = [CacheGet host] ∨
   (Cache self !! host = None ∧
    (Check_apiConfig self host).1 = [CacheGet host; CacheGet (before_colon host)])) ∧
  ∀ config : APIConfig,
    Cache self !! host = Some config →
    Check_apiConfig self host = ([CacheGet host], Returned (Some config)) ∧
    (∀ key, CacheGet key ∈ (Check E self ctx req).1 → key = host) ∧
    (∀ ctx' req' config',
       PipelineEvaluate ctx' req' config' ∈ (Check E self ctx req).1 → config' = config) ∧
    (∀ reqJSON,
       json_MarshalIndent E req = inr reqJSON →
       PipelineEvaluate ctx req config ∈ (Check E self ctx req).1).
Proof.
  intros Hhost. split.
  - rewrite Check_apiConfig_spec.
    destruct (Cache self !! host); [by left|].
    destruct (strings_Contains host ":"); [right | left]; done.
  - intros config Hexact.
    assert (Check_apiConfig self host = ([CacheGet host], Returned (Some config))) as Hresolved
      by (by rewrite Check_apiConfig_spec, Hexact).
    split; [done|].
    unfold Check. rewrite Hhost, Hresolved.
    destruct (json_MarshalIndent E req) as [err|reqJSON].
    { cbn [fst]. split; [|split]; intros; set_solver. }
    destruct (Success _); [destruct (successResponse _ _ _) as [log' response] eqn:Hsucc|].
    + assert (∀ ev, ev ∈ log' → ∃ e m, ev = LogError e m) as Hlog.
      { unfold successResponse in Hsucc.
        destruct (structpb_NewStruct _ _); injection Hsucc as <- _; set_solver. }
      cbn [fst]. split; [|split].
      * intros key Hin. rewrite !elem_of_app in Hin.
        destruct Hin as [Hin|Hin]; [set_solver|].
        apply Hlog in Hin as (e & m & Hev). discriminate.
      * intros ctx' req' config' Hin. rewrite !elem_of_app in Hin.
        destruct Hin as [Hin|Hin]; [set_solver|].
        apply Hlog in Hin as (e & m & Hev). discriminate.
      * intros reqJSON' _. set_solver.
    + cbn [fst]. split; [|split]; intros; set_solver.
Qed.

End check_properties.

(** *** The statements above on the sample instances *)

Section check_examples.
Import Go service sample.

Lemma serialization_failure_witness :
  json_MarshalIndent (handler_collaborators marshal_fails) (request_for "api")
  = inl (foreign_error "json" "unsupported value: NaN") ∧
  Check (handler_collaborators marshal_fails) two_configs live (request_for "api")
  = ([], Returned
           ({| Status_Code := 9%Z;
               HttpResponse :=
                 CheckResponse_DeniedResponse 400%Z
                   [header ("X-Ext-Auth-Reason", "Invalid request")];
               DynamicMetadata := None |}, None)).
Proof.
  split; [reflexivity|].
  apply (serialization_failure_is_invalid_request
           (handler_collaborators marshal_fails) two_configs live (request_for "api")
           (foreign_error "json" "unsupported value: NaN")).
  reflexivity.
Defined.

(** C1 as stated fails on a request that does not serialize: its host has
    no configuration, and the denial is FAILED_PRECONDITION / 400, not
    NOT_FOUND / 404. *)
Lemma unknown_host_unserializable_request :
  CheckRequest_Host (request_for "unknown.example") = Some "unknown.example" ∧
  Cache no_configs !! "unknown.example" = None ∧
  strings_Contains "unknown.example" ":" = false ∧
  ∃ response,
    Check (handler_collaborators marshal_fails) no_configs live
          (request_for "unknown.example")
    = ([], Returned (response, None)) ∧
    Status_Code response = rpc.FAILED_PRECONDITION ∧
    Status_Code response ≠ rpc.NOT_FOUND ∧
    HttpResponse response
    = CheckResponse_DeniedResponse 400%Z [header ("X-Ext-Auth-Reason", "Invalid request")].
Proof.
  repeat split; try reflexivity.
  eexists. split; [vm_compute; reflexivity|].
  repeat split; try reflexivity. discriminate.
Qed.

Lemma unknown_host_witness :
  ∃ trace,
    Check (handler_collaborators marshal_ok) two_configs live (request_for "other:9090")
    = (trace, Returned
                ({| Status_Code := 5%Z;
                    HttpResponse :=
                      CheckResponse_DeniedResponse 404%Z
                        [header ("X-Ext-Auth-Reason", "Service not found")];
                    DynamicMetadata := None |}, None)) ∧
    trace = [LogInfo "Check()" "reqJSON" "{}"; CacheGet "other:9090"; CacheGet "other"] ∧
    ∀ ctx' req' config, PipelineEvaluate ctx' req' config ∉ trace.
Proof.
  apply (unknown_host_is_not_found
           (handler_collaborators marshal_ok) two_configs live (request_for "other:9090")
           "{}" "other:9090"); reflexivity.
Defined.

(** C2 as stated fails when [h:p] has an entry of its own: the exact entry
    is resolved, not the one of [h]. *)
Lemma port_entry_shadows_bare_host :
  Cache two_configs !! "api" = Some "bare" ∧
  (Check_apiConfig (MetadataMap := unit) two_configs ("api" +:+ ":" +:+ "8080")).2
  = Returned (Some "with-port") ∧
  (Check_apiConfig (MetadataMap := unit) two_configs "api").2 = Returned (Some "bare") ∧
  (Check (handler_collaborators marshal_ok) two_configs live (request_for "api:8080")).1
  = [LogInfo "Check()" "reqJSON" "{}"; CacheGet "api:8080";
     PipelineEvaluate live (request_for "api:8080") "with-port";
     LogInfoResult "Check()" "result" allow].
Proof. repeat split; vm_compute; reflexivity. Qed.

(** It also fails when [h] itself has a colon (an IPv6 literal, say): the
    retry uses what precedes the first colon of [h:p], which is not [h]. *)
Lemma port_suffix_on_host_with_colon :
  (Check_apiConfig (MetadataMap := unit) ipv6_config "[::1]").2 = Returned (Some "v6") ∧
  Check_apiConfig (MetadataMap := unit) ipv6_config ("[::1]" +:+ ":" +:+ "8080")
  = ([CacheGet "[::1]:8080"; CacheGet "["], Returned None).
Proof. split; vm_compute; reflexivity. Qed.

Lemma port_suffix_witness :
  (Check_apiConfig (MetadataMap := unit) two_configs ("api" +:+ ":" +:+ "9090")).2
  = Returned (Some "bare") ∧
  (Check_apiConfig (MetadataMap := unit) two_configs "api").2 = Returned (Some "bare") ∧
  ∀ req reqJSON,
    json_MarshalIndent (handler_collaborators marshal_ok) req = inr reqJSON →
    CheckRequest_Host req = Some ("api" +:+ ":" +:+ "9090") →
    PipelineEvaluate live req "bare"
    ∈ (Check (handler_collaborators marshal_ok) two_configs live req).1.
Proof.
  apply (port_suffix_resolves_bare_host
           (handler_collaborators marshal_ok) two_configs live "api" "9090" "bare");
    reflexivity.
Defined.

Lemma exact_host_witness :
  ((Check_apiConfig (MetadataMap := unit) two_configs "api:8080").1 = [CacheGet "api:8080"] ∨
   (Cache two_configs !! "api:8080" = None ∧
    (Check_apiConfig (MetadataMap := unit) two_configs "api:8080").1
    = [CacheGet "api:8080"; CacheGet (before_colon "api:8080")])) ∧
  ∀ config : string,
    Cache two_configs !! "api:8080" = Some config →
    Check_apiConfig (MetadataMap := unit) two_configs "api:8080"
    = ([CacheGet "api:8080"], Returned (Some config)) ∧
    (∀ key,
       CacheGet key
       ∈ (Check (handler_collaborators marshal_ok) two_configs live
                (request_for "api:8080")).1 →
       key = "api:8080") ∧
    (∀ ctx' req' config',
       PipelineEvaluate ctx' req' config'
       ∈ (Check (handler_collaborators marshal_ok) two_configs live
                (request_for "api:8080")).1 →
       config' = config) ∧
    (∀ reqJSON,
       json_MarshalIndent (handler_collaborators marshal_ok) (request_for "api:8080")
       = inr reqJSON →
       PipelineEvaluate live (request_for "api:8080") config
       ∈ (Check (handler_collaborators marshal_ok) two_configs live
                (request_for "api:8080")).1).
Proof.
  apply (exact_host_takes_precedence
           (handler_collaborators marshal_ok) two_configs live (request_for "api:8080")
           "api:8080").
  reflexivity.
Defined.

End check_examples.

(** ** The JSON decoder *)

Section decoder_facts.
Import Go gojson.

(** What is left after a scanned value is a suffix of the input. *)
Lemma scan_rest (s : string) :
  ∀ st stack v rest,
    scan st stack s = scanned v rest → (String.length rest ≤ String.length s)%nat.
Proof.
  induction s as [|c s IH]; intros st stack v rest Hscan; [discriminate|].
  cbn [scan] in Hscan.
  destruct (step st stack c) as [st' stack'|v' [|]|].
  - apply IH in Hscan. cbn [String.length]. lia.
  - injection Hscan as _ <-. cbn [String.length]. lia.
  - by injection Hscan as _ <-.
  - discriminate.
Qed.

(** The first byte of a value never ends it. *)
Lemma step_BeginValue_continues (c : ascii) (v : value) (consumed : bool) :
  step stateBeginValue [] c ≠ scanEnd v consumed.
Proof.
  cbn [step]. unfold step_BeginValue, pushParseState.
  repeat case_match; discriminate.
Qed.

(** A successful [Decode] consumes at least one byte and keeps the reader's
    final condition. *)
Lemma Decode_consumes (dec dec' : Decoder) (claims : Claims) :
  Decode dec = inr (claims, dec') →
  (String.length (unread dec') < String.length (unread dec))%nat ∧
  failure dec' = failure dec.
Proof.
  unfold Decode. destruct (unread dec) as [|c s] eqn:Hunread.
  - cbn [scan]. destruct (failure dec); [discriminate|]. discriminate.
  - assert (∀ v rest, (String.length rest ≤ String.length s)%nat →
              decoded dec v rest = inr (claims, dec') →
              (String.length (unread dec') < String.length (String c s))%nat ∧
              failure dec' = failure dec) as Hdecoded.
    { intros v rest Hle. unfold decoded. destruct (unmarshal v); [discriminate|].
      intros [= _ <-]. cbn [unread failure String.length]. split; [lia | done]. }
    cbn [scan]. destruct (step stateBeginValue [] c) as [st' stack'|v' consumed|] eqn:Hstep.
    + destruct (scan st' stack' s) as [v rest| |st'' stack''] eqn:Hscan.
      * apply Hdecoded. by eapply scan_rest.
      * discriminate.
      * destruct (failure dec); [discriminate|].
        destruct (step st'' stack'' " "); try (repeat case_match; discriminate).
        apply Hdecoded. cbn [String.length]. lia.
    + by apply step_BeginValue_continues in Hstep.
    + discriminate.
Qed.

End decoder_facts.

(** ** The generic HTTP evaluator *)

Section evaluator_properties.
Import Go metadata.

Context {any JSONValue AuthPipeline Credentials : Type}.
Implicit Types E : Collaborators (any := any) (JSONValue := JSONValue)
                                 (AuthPipeline := AuthPipeline)
                                 (Credentials := Credentials).
Implicit Types h : GenericHttp (JSONValue := JSONValue) (Credentials := Credentials).

(** The decoding loop ends within one iteration per unread byte. *)
Lemma Call_decode_ends (fuel : nat) :
  ∀ (decoder : gojson.Decoder) (elements : list gojson.Claims),
    (String.length (unread decoder) < fuel)%nat →
    ∃ outcome, Call_decode fuel decoder elements = Some outcome.
Proof.
  induction fuel as [|fuel IH]; intros decoder elements Hfuel; [lia|].
  cbn [Call_decode].
  destruct (gojson.Decode decoder) as [err|[claims decoder']] eqn:Hdecode; [by eexists|].
  apply Decode_consumes in Hdecode as [Hless _].
  destruct (gojson.More decoder'); [|by eexists].
  apply IH. lia.
Qed.

(** It decodes before it asks for more: what it returns is never empty. *)
Lemma Call_decode_nonempty (fuel : nat) :
  ∀ (decoder : gojson.Decoder) (elements result : list gojson.Claims),
    Call_decode fuel decoder elements = Some (inr result) →
    ∃ claims rest, result = elements ++ claims :: rest.
Proof.
  induction fuel as [|fuel IH]; intros decoder elements result Hloop; [discriminate|].
  cbn [Call_decode] in Hloop.
  destruct (gojson.Decode decoder) as [err|[claims decoder']]; [discriminate|].
  destruct (gojson.More decoder').
  - apply IH in Hloop as (claims' & rest & ->).
    exists claims, (claims' :: rest). by rewrite <- app_assoc.
  - injection Hloop as <-. by exists claims, [].
Qed.

(** What it returns is what the decoder yields, in that order. *)
Lemma Call_decode_in_order (fuel : nat) :
  ∀ (decoder : gojson.Decoder) (elements result : list gojson.Claims),
    Call_decode fuel decoder elements = Some (inr result) →
    ∃ decoded, decodes decoder decoded ∧ result = elements ++ decoded.
Proof.
  induction fuel as [|fuel IH]; intros decoder elements result Hloop; [discriminate|].
  cbn [Call_decode] in Hloop.
  destruct (gojson.Decode decoder) as [err|[claims decoder']] eqn:Hdecode; [discriminate|].
  destruct (gojson.More decoder') eqn:Hmore.
  - apply IH in Hloop as (decoded & Hdecoded & ->).
    exists (claims :: decoded). split; [by eapply decodes_more|].
    by rewrite <- app_assoc.
  - injection Hloop as <-. exists [claims]. split; [by eapply decodes_last | done].
Qed.

(** Parsing the response always ends, and only closes the body. *)
Lemma Call_response_returns (resp : http.Response) :
  ∃ closes result,
    Call_response resp = Some (closes, result) ∧ ∀ ev, ev ∈ closes → ev = BodyClose.
Proof.
  unfold Call_response.
  destruct (strings_Contains _ _).
  - destruct (Call_decode_ends (S (String.length (unread (http.resp_Body resp))))
                (http.resp_Body resp) []) as [[err|elements] ->]; [lia| |];
      do 2 eexists; (split; [reflexivity | set_solver]).
  - destruct (io_ReadAll (http.resp_Body resp)) as [str [err|]];
      do 2 eexists; (split; [reflexivity | set_solver]).
Qed.

(** [Call] always returns. *)
Lemma Call_returns E h (pipeline : AuthPipeline) (ctx : gocontext.Context) :
  ∃ trace result, Call E h pipeline ctx = Some (trace, result).
Proof.
  unfold Call.
  destruct (CheckContext ctx); [by do 2 eexists|].
  destruct (Call_requestBody E h _) as [err|[contentType requestBody]]; [by do 2 eexists|].
  destruct (match AuthCredentials h with Some _ => _ | None => _ end) as [err|req];
    [by do 2 eexists|].
  destruct (http_DefaultClient_Do E _) as [err|resp]; [by do 2 eexists|].
  destruct (Call_response_returns resp) as (closes & result & -> & _).
  by do 2 eexists.
Qed.

(** Setting headers leaves the body of the request alone. *)
Lemma foldl_Header_Set_body E {A : Type} (key value : A → string) (headers : list A) :
  ∀ req : http.Request,
    http.req_Body (foldl (fun req a => Header_Set E req (key a) (value a)) req headers)
    = http.req_Body req.
Proof.
  induction headers as [|a headers IH]; intros req; [reflexivity|].
  cbn [foldl]. by rewrite IH.
Qed.

(** A GET request has no body and is announced as text/plain. *)
Lemma Call_requestBody_GET E h (authJSON : string) :
  Method h = "GET" → Call_requestBody E h authJSON = inr ("text/plain", None).
Proof. unfold Call_requestBody. by intros ->. Qed.

(** C7. When the scope handed to [Call] is already cancelled or expired,
    [Call] returns an error at once: no request is built, nothing is sent,
    nothing is logged. *)
Theorem cancelled_scope_fails_first E h (pipeline : AuthPipeline) (ctx : gocontext.Context) :
  gocontext.state ctx ≠ gocontext.Active →
  ∃ err,
    Call E h pipeline ctx = Some ([], (value_nil, Some err)) ∧
    CheckContext ctx = Some err.
Proof.
  intros Hdone. unfold Call.
  destruct (CheckContext ctx) as [err|] eqn:Hcheck; [by exists err|].
  unfold CheckContext in Hcheck. by destruct (gocontext.state ctx).
Qed.

(** C6, as amended. An evaluator whose method is neither GET nor POST, and
    a POST evaluator without a body template whose content type is neither
    application/x-www-form-urlencoded nor application/json, fail before any
    request is built or sent, and [Call] returns: with the error
    "unsupported method", respectively "unsupported content-type", when the
    scope is live, and with the error of the scope when it is already
    cancelled or expired. *)
Theorem unsupported_configuration_fails E h (pipeline : AuthPipeline)
    (ctx : gocontext.Context) :
  (Method h ≠ "GET" → Method h ≠ "POST" →
   Call E h pipeline ctx
   = Some ([], (value_nil,
                Some (default (fmt_Errorf "unsupported method") (CheckContext ctx))))) ∧
  (Method h = "POST" → Body h = None →
   ContentType h ≠ "application/x-www-form-urlencoded" →
   ContentType h ≠ "application/json" →
   Call E h pipeline ctx
   = Some ([], (value_nil,
                Some (default (fmt_Errorf "unsupported content-type") (CheckContext ctx))))).
Proof.
  split.
  - intros Hget Hpost. unfold Call. destruct (CheckContext ctx); [reflexivity|].
    unfold Call_requestBody.
    apply String.eqb_neq in Hget, Hpost. by rewrite Hget, Hpost.
  - intros Hpost Hbody Hform Hjson. unfold Call. destruct (CheckContext ctx); [reflexivity|].
    unfold Call_requestBody, buildRequestBody. rewrite Hpost, Hbody.
    apply String.eqb_neq in Hform, Hjson. by rewrite Hform, Hjson.
Qed.

(** Whatever the scope and the outcome of building the request: every
    request a GET evaluator sends has no body and carries Content-Type:
    text/plain, whatever content type and headers are configured (the
    credentials, when there are any, are assumed to build a request without
    a body when they are given none); and a GET evaluator that sends nothing
    has failed, on its scope or on building the request. *)
Theorem GET_request_is_plain E h (pipeline : AuthPipeline) (ctx : gocontext.Context) :
  Method h = "GET" →
  (∀ credentials endpoint req,
     AuthCredentials h = Some credentials →
     BuildRequestWithCredentials E credentials ctx endpoint "GET" (SharedSecret h) None
     = inr req →
     http.req_Body req = None) →
  ∃ trace result,
    Call E h pipeline ctx = Some (trace, result) ∧
    (∀ req,
       HttpDo req ∈ trace →
       http.req_Body req = None ∧
       http.req_Header req !! CanonicalMIMEHeaderKey E "Content-Type"
       = Some ["text/plain"]) ∧
    ((∀ req, HttpDo req ∉ trace) → ∃ err, trace = [] ∧ result = (value_nil, Some err)).
Proof.
  intros Hget Hcredentials.
  destruct (Call_returns E h pipeline ctx) as (trace & result & Hcall).
  exists trace, result. split; [done|].
  unfold Call in Hcall.
  destruct (CheckContext ctx) as [err|].
  { injection Hcall as <- <-. split; [set_solver | by exists err]. }
  rewrite (Call_requestBody_GET E h _ Hget) in Hcall.
  set (endpoint := ReplaceJSONPlaceholders E _ _) in Hcall.
  match type of Hcall with
  | context [match ?built with inl _ => _ | inr _ => _ end] =>
      destruct built as [err|req0] eqn:Hbuilt
  end.
  { injection Hcall as <- <-. split; [set_solver | by exists err]. }
  assert (http.req_Body req0 = None) as Hbody0.
  { destruct (AuthCredentials h) as [credentials|] eqn:Hcred.
    - rewrite Hget in Hbuilt. by apply (Hcredentials credentials endpoint).
    - unfold http_NewRequestWithContext in Hbuilt.
      destruct (url_Parse E endpoint); [discriminate|]. by injection Hbuilt as <-. }
  set (req := Header_Set E _ "Content-Type" "text/plain") in Hcall.
  assert (http.req_Body req = None ∧
          http.req_Header req !! CanonicalMIMEHeaderKey E "Content-Type"
          = Some ["text/plain"]) as [Hbody Hheader].
  { split.
    - subst req. cbn [Header_Set http.req_Body]. by rewrite foldl_Header_Set_body.
    - subst req. cbn [Header_Set http.req_Header]. apply lookup_insert_eq. }
  set (log := if gocontext.logger_V1_Enabled ctx then _ else _) in Hcall.
  assert (∀ r, HttpDo r ∉ log) as Hlog
    by (intros r; subst log; destruct (gocontext.logger_V1_Enabled ctx); set_solver).
  assert (∀ r, HttpDo r ∈ trace → r = req) as Honly.
  { destruct (http_DefaultClient_Do E req) as [err|resp].
    - injection Hcall as <- _. intros r Hin. specialize (Hlog r).
      rewrite elem_of_app in Hin. destruct Hin as [Hin|Hin]; [done|].
      apply list_elem_of_singleton in Hin. by injection Hin.
    - destruct (Call_response_returns resp) as (closes & res & Hresp & Hcloses).
      rewrite Hresp in Hcall. injection Hcall as <- _.
      intros r Hin. specialize (Hlog r).
      rewrite elem_of_app, elem_of_cons in Hin.
      destruct Hin as [Hin|[Hin|Hin]]; [done| |].
      + by injection Hin.
      + apply Hcloses in Hin. discriminate. }
  split.
  - intros r Hin. apply Honly in Hin as ->. done.
  - intros Hnone. exfalso. apply (Hnone req).
    destruct (http_DefaultClient_Do E req) as [err|resp].
    + injection Hcall as <- _. rewrite elem_of_app, list_elem_of_singleton. by right.
    + destruct (Call_response resp) as [[closes res]|]; [|discriminate].
      injection Hcall as <- _. rewrite elem_of_app, elem_of_cons. auto.
Qed.

End evaluator_properties.

Section response_properties.
Import Go metadata.

(** A body of spaces only is read to its end in the initial state. *)
Lemma scan_spaces (s : string) :
  gojson.peek s = None →
  gojson.scan gojson.stateBeginValue [] s
  = gojson.scan_input_end gojson.stateBeginValue [].
Proof.
  induction s as [|c s IH]; intros Hpeek; [reflexivity|].
  cbn [gojson.peek] in Hpeek. cbn [gojson.scan gojson.step].
  unfold gojson.step_BeginValue.
  destruct (gojson.isSpace c); [by apply IH | discriminate].
Qed.

(** Without a value to decode, [Decode] reports [io.EOF]. *)
Lemma Decode_no_value (dec : gojson.Decoder) :
  failure dec = None → gojson.peek (unread dec) = None → gojson.Decode dec = inl io_EOF.
Proof.
  intros Hfailure Hpeek. unfold gojson.Decode.
  by rewrite (scan_spaces _ Hpeek), Hfailure.
Qed.

(** C4, what the code does. Under a JSON content type the evaluator never
    returns the absent value without an error: the loop decodes before it
    asks whether there is more, so a body with no JSON value in it (empty,
    or spaces only) is a failure, [io.EOF]; the branch for zero decoded
    maps is never taken. *)
Theorem json_response_is_never_absent (resp : http.Response) :
  strings_Contains
    (strings_Join (default [] (http.resp_Header resp !! "Content-Type")) ";")
    "application/json" = true →
  (∀ closes, Call_response resp ≠ Some (closes, (value_nil, None))) ∧
  (failure (http.resp_Body resp) = None →
   gojson.peek (unread (http.resp_Body resp)) = None →
   Call_response resp = Some ([BodyClose], (value_nil, Some io_EOF))).
Proof.
  intros Hjson. unfold Call_response. rewrite Hjson. split.
  - intros closes.
    destruct (Call_decode _ _ _) as [[err|elements]|] eqn:Hloop; [discriminate| |discriminate].
    apply Call_decode_nonempty in Hloop as (claims & rest & ->).
    cbn [app]. destruct rest; discriminate.
  - intros Hfailure Hpeek. cbn [Call_decode].
    by rewrite (Decode_no_value _ Hfailure Hpeek).
Qed.

(** The parts of C4 that hold: when a JSON response is parsed without
    error, the value is the one decoded map if the decoder yielded exactly
    one, and the slice of all of them, in the order decoded, if it yielded
    more. *)
Lemma json_response_decoded (resp : http.Response) (closes : list Event) (v : Interface) :
  strings_Contains
    (strings_Join (default [] (http.resp_Header resp !! "Content-Type")) ";")
    "application/json" = true →
  Call_response resp = Some (closes, (v, None)) →
  ∃ decoded,
    decodes (http.resp_Body resp) decoded ∧
    v = match decoded with
        | [claims] => value_map claims
        | _ => value_maps decoded
        end.
Proof.
  intros Hjson. unfold Call_response. rewrite Hjson.
  destruct (Call_decode _ _ _) as [[err|elements]|] eqn:Hloop; [discriminate| |discriminate].
  intros [= _ <-].
  destruct (Call_decode_in_order _ _ _ _ Hloop) as (decoded & Hdecoded & ->).
  exists decoded. split; [done|]. cbn [app].
  destruct decoded as [|claims [|claims' rest]]; [inversion Hdecoded | done | done].
Qed.

End response_properties.

(** *** The statements above on the sample instances *)

Section evaluator_examples.
Import Go metadata sample.

Lemma empty_json_body_witness :
  (∀ closes,
     Call_response (response "application/json" EmptyString)
     ≠ Some (closes, (value_nil, None))) ∧
  (failure (http.resp_Body (response "application/json" EmptyString)) = None →
   gojson.peek (unread (http.resp_Body (response "application/json" EmptyString))) = None →
   Call_response (response "application/json" EmptyString)
   = Some ([BodyClose], (value_nil, Some io_EOF))).
Proof.
  apply (json_response_is_never_absent (response "application/json" EmptyString)).
  reflexivity.
Defined.

(** The same through [Call]: a GET evaluator whose JSON answer is empty. *)
Lemma empty_json_body_fails :
  ∃ req,
    Call (evaluator_collaborators (fun _ => inr (response "application/json" EmptyString)))
         (evaluator "GET" "application/json" None) "{}" live
    = Some ([HttpDo req; BodyClose], (value_nil, Some io_EOF)).
Proof. eexists. vm_compute. reflexivity. Qed.

(** One object is returned as such, several as their sequence in order (a
    [null] among them as a nil map). *)
Lemma one_object_yields_it :
  Call_response (response "application/json" (json_text "{'x':1}"))
  = Some ([BodyClose], (value_map (Some [("x", gojson.Number "1")]), None)).
Proof. vm_compute. reflexivity. Qed.

Lemma two_objects_yield_their_sequence :
  Call_response (response "application/json; charset=utf-8" (json_text "{'x':1}{'y':2}"))
  = Some ([BodyClose],
          (value_maps [Some [("x", gojson.Number "1")]; Some [("y", gojson.Number "2")]],
           None)).
Proof. vm_compute. reflexivity. Qed.

Lemma objects_and_null_yield_their_sequence :
  Call_response (response "application/json" (json_text "{'x':1} null {'y':[true,'z']} "))
  = Some ([BodyClose],
          (value_maps
             [Some [("x", gojson.Number "1")]; None;
              Some [("y", gojson.Array [gojson.Bool true; gojson.String_ "z"])]],
           None)).
Proof. vm_compute. reflexivity. Qed.

(** Bytes that do not parse are a failure when the loop gets to them... *)
Lemma garbage_after_object_fails :
  Call_response (response "application/json" (json_text "{'x':1} oops"))
  = Some ([BodyClose], (value_nil, Some json_SyntaxError)).
Proof. vm_compute. reflexivity. Qed.

Lemma array_body_fails :
  Call_response (response "application/json" (json_text "[{'x':1}]"))
  = Some ([BodyClose], (value_nil, Some json_UnmarshalTypeError)).
Proof. vm_compute. reflexivity. Qed.

(** ... but [More] answers no at a closing bracket or brace, and whatever
    follows is then never read. *)
Lemma closing_bracket_ends_the_loop :
  Call_response (response "application/json" (json_text "{'x':1}] this is not JSON"))
  = Some ([BodyClose], (value_map (Some [("x", gojson.Number "1")]), None)).
Proof. vm_compute. reflexivity. Qed.

(** Any other content type yields the body as text. *)
Lemma text_body_is_returned :
  Call_response (response "text/plain" "hello")
  = Some ([BodyClose; BodyClose], (value_string "hello", None)).
Proof. vm_compute. reflexivity. Qed.

Lemma cancelled_scope_witness :
  ∃ err,
    Call (evaluator_collaborators (fun _ => inr (response "text/plain" "hello")))
         (evaluator "GET" "application/json" None) "{}" cancelled
    = Some ([], (value_nil, Some err)) ∧
    CheckContext cancelled = Some err.
Proof.
  apply (cancelled_scope_fails_first
           (evaluator_collaborators (fun _ => inr (response "text/plain" "hello")))
           (evaluator "GET" "application/json" None) "{}" cancelled).
  discriminate.
Defined.

(** C6 as stated fails when the scope is already cancelled: the error is
    the one of the scope, not "unsupported method". *)
Lemma unsupported_method_on_cancelled_scope :
  Method (evaluator "PUT" "application/json" None) ≠ "GET" ∧
  Method (evaluator "PUT" "application/json" None) ≠ "POST" ∧
  Call (evaluator_collaborators (fun _ => inr (response "text/plain" "hello")))
       (evaluator "PUT" "application/json" None) "{}" cancelled
  = Some ([], (value_nil, Some context_Canceled)) ∧
  context_Canceled ≠ fmt_Errorf "unsupported method".
Proof. repeat split; try discriminate. Qed.

Lemma unsupported_configuration_witness :
  Call (evaluator_collaborators (fun _ => inr (response "text/plain" "hello")))
       (evaluator "PUT" "application/json" None) "{}" live
  = Some ([], (value_nil, Some (fmt_Errorf "unsupported method"))) ∧
  Call (evaluator_collaborators (fun _ => inr (response "text/plain" "hello")))
       (evaluator "POST" "text/xml" None) "{}" live
  = Some ([], (value_nil, Some (fmt_Errorf "unsupported content-type"))).
Proof.
  split.
  - apply (proj1 (unsupported_configuration_fails
                    (evaluator_collaborators (fun _ => inr (response "text/plain" "hello")))
                    (evaluator "PUT" "application/json" None) "{}" live)); discriminate.
  - apply (proj2 (unsupported_configuration_fails
                    (evaluator_collaborators (fun _ => inr (response "text/plain" "hello")))
                    (evaluator "POST" "text/xml" None) "{}" live));
      (reflexivity || discriminate).
Defined.

Lemma GET_request_witness :
  ∃ trace result,
    Call (evaluator_collaborators (fun _ => inr (response "text/plain" "hello")))
         (evaluator "GET" "application/json" (Some "Authorization")) "{}" live
    = Some (trace, result) ∧
    (∀ req,
       HttpDo req ∈ trace →
       http.req_Body req = None ∧
       http.req_Header req !! "Content-Type" = Some ["text/plain"]) ∧
    ((∀ req, HttpDo req ∉ trace) → ∃ err, trace = [] ∧ result = (value_nil, Some err)).
Proof.
  apply (GET_request_is_plain
           (evaluator_collaborators (fun _ => inr (response "text/plain" "hello")))
           (evaluator "GET" "application/json" (Some "Authorization")) "{}" live).
  - reflexivity.
  - intros credentials endpoint req _ [= <-]. reflexivity.
Defined.

(** What that GET evaluator sends: the configured Content-Type header is
    overwritten, the other headers and the credentials are kept. *)
Lemma GET_request_sent :
  Call (evaluator_collaborators (fun _ => inr (response "text/plain" "hello")))
       (evaluator "GET" "application/json" (Some "Authorization")) "{}" live
  = Some ([HttpDo {| http.req_Context := live; http.req_Method := "GET";
                     http.req_URL := "http://metadata.example/info";
                     http.req_Header :=
                       {[ "Authorization" := ["s3cr3t"]; "X-Trace" := ["on"];
                          "Content-Type" := ["text/plain"] ]};
                     http.req_Body := None |};
           BodyClose; BodyClose],
          (value_string "hello", None)).
Proof. vm_compute. reflexivity. Qed.

End evaluator_examples.

(** ** Further properties of the check handler *)

Section check_paths.
Import Go service.

Context {APIConfig MetadataMap Struct : Type}.
Implicit Types E : Collaborators (APIConfig := APIConfig) (MetadataMap := MetadataMap)
                                 (Struct := Struct).
Implicit Types self : AuthService (APIConfig := APIConfig).
Implicit Types result : AuthResult (MetadataMap := MetadataMap).

Abbreviation Check_apiConfig := (service.Check_apiConfig (MetadataMap := MetadataMap)).

(** [Check] past the serialization and the host: the lookup never panics. *)
Lemma Check_resolved E self ctx req (reqJSON host : string) :
  json_MarshalIndent E req = inr reqJSON →
  CheckRequest_Host req = Some host →
  ∃ reads found,
    Check_apiConfig self host = (reads, Returned found) ∧
    Check E self ctx req
    = match found with
      | None =>
          ([LogInfo "Check()" "reqJSON" reqJSON] ++ reads,
           Returned
             (deniedResponse E self
                {| Code := rpc.NOT_FOUND; Message := RESPONSE_MESSAGE_SERVICE_NOT_FOUND;
                   Headers := None; Metadata := None |}, None))
      | Some config =>
          let result := AuthPipeline_Evaluate E ctx req config in
          let trace :=
            [LogInfo "Check()" "reqJSON" reqJSON] ++ reads ++
            [PipelineEvaluate ctx req config; LogInfoResult "Check()" "result" result] in
          if Success result
          then (trace ++ (successResponse E self result).1,
                Returned ((successResponse E self result).2, None))
          else (trace, Returned (deniedResponse E self result, None))
      end.
Proof.
  intros Hmarshal Hhost.
  destruct (Check_apiConfig_returns (MetadataMap := MetadataMap) self host) as [found Hfound].
  destruct (Check_apiConfig self host) as [reads outcome] eqn:Hlookup.
  cbn [snd] in Hfound. subst outcome. exists reads, found. split; [done|].
  unfold Check. rewrite Hmarshal, Hhost, Hlookup.
  destruct found as [config|]; [|done]. cbv zeta.
  destruct (Success _); [|done]. by destruct (successResponse _ _ _).
Qed.

(** Whether the result is a success is whether its code is OK. *)
Lemma Success_OK result : Success result = true ↔ Code result = rpc.OK.
Proof. unfold Success. apply bool_decide_eq_true. Qed.

(** X1. When the request serializes, its host resolves to a configuration
    and the pipeline's verdict has code OK, the handler answers with status
    OK and an OK response whose headers are the rendering of the verdict's
    headers: no reason header is added. The pipeline ran once, after the
    cache reads. *)
Theorem allowed_request_gets_ok_response E self ctx req (reqJSON host : string)
    (config : APIConfig) :
  json_MarshalIndent E req = inr reqJSON →
  CheckRequest_Host req = Some host →
  (Check_apiConfig self host).2 = Returned (Some config) →
  Code (AuthPipeline_Evaluate E ctx req config) = rpc.OK →
  ∃ log response,
    Check E self ctx req
    = (LogInfo "Check()" "reqJSON" reqJSON :: (Check_apiConfig self host).1 ++
       [PipelineEvaluate ctx req config;
        LogInfoResult "Check()" "result" (AuthPipeline_Evaluate E ctx req config)] ++ log,
       Returned (response, None)) ∧
    Status_Code response = 0%Z ∧
    HttpResponse response
    = CheckResponse_OkResponse
        (buildResponseHeaders E (Headers (AuthPipeline_Evaluate E ctx req config))) ∧
    (∀ ev, ev ∈ log → ∃ err msg, ev = LogError err msg).
Proof.
  intros Hmarshal Hhost Hconfig Hok.
  destruct (Check_resolved E self ctx req reqJSON host Hmarshal Hhost)
    as (reads & found & Hlookup & ->).
  rewrite Hlookup in Hconfig |- *. cbn [fst snd] in *. injection Hconfig as ->.
  cbv zeta. apply Success_OK in Hok. rewrite Hok.
  exists (successResponse E self (AuthPipeline_Evaluate E ctx req config)).1,
         (successResponse E self (AuthPipeline_Evaluate E ctx req config)).2.
  split; [by rewrite <- !app_assoc|].
  unfold successResponse.
  destruct (structpb_NewStruct E _) as [err|s]; cbn [fst snd Status_Code HttpResponse].
  - repeat split. intros ev Hin. apply list_elem_of_singleton in Hin. eauto.
  - repeat split. intros ev Hin. by apply not_elem_of_nil in Hin.
Qed.

(** X2. When the request serializes, its host resolves to a configuration
    and the pipeline's verdict has a code other than OK, the handler answers
    with a denied response: the verdict's code, the status the table gives
    for it, the verdict's headers followed by the reason header with the
    verdict's message, and no dynamic metadata. *)
Theorem denied_request_gets_verdict E self ctx req (reqJSON host : string)
    (config : APIConfig) :
  json_MarshalIndent E req = inr reqJSON →
  CheckRequest_Host req = Some host →
  (Check_apiConfig self host).2 = Returned (Some config) →
  Code (AuthPipeline_Evaluate E ctx req config) ≠ rpc.OK →
  Check E self ctx req
  = (LogInfo "Check()" "reqJSON" reqJSON :: (Check_apiConfig self host).1 ++
     [PipelineEvaluate ctx req config;
      LogInfoResult "Check()" "result" (AuthPipeline_Evaluate E ctx req config)],
     Returned
       ({| Status_Code := Code (AuthPipeline_Evaluate E ctx req config);
           HttpResponse :=
             CheckResponse_DeniedResponse
               (map_index statusCodeMapping (Code (AuthPipeline_Evaluate E ctx req config)))
               (buildResponseHeaders E (Headers (AuthPipeline_Evaluate E ctx req config))
                ++ [header ("X-Ext-Auth-Reason",
                            Message (AuthPipeline_Evaluate E ctx req config))]);
           DynamicMetadata := None |}, None)).
Proof.
  intros Hmarshal Hhost Hconfig Hdenied.
  destruct (Check_resolved E self ctx req reqJSON host Hmarshal Hhost)
    as (reads & found & Hlookup & ->).
  rewrite Hlookup in Hconfig |- *. cbn [fst snd] in *. injection Hconfig as ->.
  cbv zeta.
  destruct (Success _) eqn:Hsuccess; [by apply Success_OK in Hsuccess|].
  unfold deniedResponse. by rewrite buildResponseHeadersWithReason_last.
Qed.

(** X3. A verdict whose metadata cannot be converted to a struct is still a
    success: the handler logs the conversion error and answers with status
    OK, the verdict's headers and no dynamic metadata. *)
Theorem metadata_failure_keeps_success E self ctx req (reqJSON host : string)
    (config : APIConfig) (err : error) :
  json_MarshalIndent E req = inr reqJSON →
  CheckRequest_Host req = Some host →
  (Check_apiConfig self host).2 = Returned (Some config) →
  Code (AuthPipeline_Evaluate E ctx req config) = rpc.OK →
  structpb_NewStruct E (Metadata (AuthPipeline_Evaluate E ctx req config)) = inl err →
  ∃ trace,
    Check E self ctx req
    = (trace ++ [LogError err "failed to create dynamic metadata"],
       Returned
         ({| Status_Code := 0%Z;
             HttpResponse :=
               CheckResponse_OkResponse
                 (buildResponseHeaders E (Headers (AuthPipeline_Evaluate E ctx req config)));
             DynamicMetadata := None |}, None)).
Proof.
  intros Hmarshal Hhost Hconfig Hok Hstruct.
  destruct (Check_resolved E self ctx req reqJSON host Hmarshal Hhost)
    as (reads & found & Hlookup & ->).
  rewrite Hlookup in Hconfig. cbn [snd] in Hconfig. injection Hconfig as ->.
  cbv zeta. apply Success_OK in Hok. rewrite Hok.
  unfold successResponse. rewrite Hstruct. cbn [fst snd]. by eexists.
Qed.

(** X4. The handler panics exactly when the request serializes and one of
    the pointers on the way to its host ([Attributes], [Request], [Http]) is
    nil; in every other case it returns a response and a nil error. *)
Theorem check_panics_iff_host_is_missing E self ctx req :
  ((∃ reason, (Check E self ctx req).2 = Panicked reason) ↔
   (∃ reqJSON, json_MarshalIndent E req = inr reqJSON) ∧ CheckRequest_Host req = None) ∧
  ((∃ response, (Check E self ctx req).2 = Returned (response, None)) ↔
   (∃ err, json_MarshalIndent E req = inl err) ∨ (∃ host, CheckRequest_Host req = Some host)).
Proof.
  destruct (json_MarshalIndent E req) as [err|reqJSON] eqn:Hmarshal.
  { unfold Check. rewrite Hmarshal. cbn [snd]. split; split.
    - intros [reason [=]].
    - intros [[reqJSON [=]] _].
    - intros _. left. by exists err.
    - intros _. by eexists. }
  destruct (CheckRequest_Host req) as [host|] eqn:Hhost.
  - destruct (Check_resolved E self ctx req reqJSON host Hmarshal Hhost)
      as (reads & found & _ & ->).
    destruct found as [config|]; cbv zeta; [destruct (Success _)|]; cbn [snd];
      (split; split;
       [ intros [reason [=]]
       | intros [_ [=]]
       | intros _; right; by exists host
       | intros _; by eexists ]).
  - unfold Check. rewrite Hmarshal, Hhost. cbn [snd]. split; split.
    + intros _. split; [by exists reqJSON | done].
    + intros _. by eexists.
    + intros [response [=]].
    + intros [[err [=]]|[host [=]]].
Qed.

(** X5. On every path that returns, the error is nil, the status of the
    response is OK exactly when it is an OK response, and a response with
    dynamic metadata is an OK response. *)
Theorem response_status_agrees_with_variant E self ctx req
    (response : CheckResponse) (err : option error) :
  (Check E self ctx req).2 = Returned (response, err) →
  err = None ∧
  (Status_Code response = rpc.OK ↔
   ∃ headers, HttpResponse response = CheckResponse_OkResponse headers) ∧
  (DynamicMetadata response ≠ None → Status_Code response = rpc.OK).
Proof.
  assert (∀ code message,
            code ≠ rpc.OK →
            let denied :=
              deniedResponse E self
                {| Code := code; Message := message; Headers := None; Metadata := None |} in
            (Status_Code denied = rpc.OK ↔
             ∃ headers, HttpResponse denied = CheckResponse_OkResponse headers) ∧
            (DynamicMetadata denied ≠ None → Status_Code denied = rpc.OK)) as Hplain.
  { intros code message Hcode. cbn. split; [split|done].
    - done.
    - intros [headers [=]]. }
  destruct (json_MarshalIndent E req) as [e|reqJSON] eqn:Hmarshal.
  { unfold Check. rewrite Hmarshal. cbn [snd]. intros [= <- <-].
    split; [done|]. by apply Hplain. }
  destruct (CheckRequest_Host req) as [host|] eqn:Hhost.
  2:{ unfold Check. by rewrite Hmarshal, Hhost. }
  destruct (Check_resolved E self ctx req reqJSON host Hmarshal Hhost)
    as (reads & found & _ & ->).
  destruct found as [config|].
  2:{ cbn [snd]. intros [= <- <-]. split; [done|]. by apply Hplain. }
  cbv zeta. destruct (Success _) eqn:Hsuccess; cbn [snd]; intros [= <- <-].
  - split; [done|]. unfold successResponse.
    destruct (structpb_NewStruct E _); cbn; split; try done; split; eauto.
  - split; [done|]. cbn. split; [split|done].
    + intros Hok. apply Success_OK in Hok. congruence.
    + intros [headers [=]].
Qed.

(** X6. Rendering loses and invents nothing: a header is rendered exactly
    when it is an entry of one of the maps, and there are as many rendered
    headers as the maps have entries. *)
Theorem rendered_headers_are_the_entries E (headers : option (list (gmap string string))) :
  (∀ key value,
     header (key, value) ∈ buildResponseHeaders E headers ↔
     ∃ headerMap, headerMap ∈ default [] headers ∧ headerMap !! key = Some value) ∧
  length (buildResponseHeaders E headers) = sum_list (size <$> default [] headers).
Proof.
  unfold buildResponseHeaders. generalize (default [] headers) as maps. clear headers.
  intros maps. generalize 0 as i.
  induction maps as [|m maps IH]; intros i.
  - split; [|reflexivity]. intros key value. cbn [buildResponseHeaders_from]. split.
    + intros Hin. by apply not_elem_of_nil in Hin.
    + intros (headerMap & Hin & _). by apply not_elem_of_nil in Hin.
  - destruct (IH (S i)) as [IHin IHlen]. cbn [buildResponseHeaders_from]. split.
    + intros key value. rewrite elem_of_app, IHin. split.
      * intros [Hin|(headerMap & Hin & Hlookup)].
        -- exists m. split; [by left|].
           apply list_elem_of_fmap in Hin as ([k v] & [= <- <-] & Hin).
           rewrite (rangeOrder_enumerates E i m) in Hin.
           by apply elem_of_map_to_list in Hin.
        -- exists headerMap. split; [by right | done].
      * intros (headerMap & Hin & Hlookup). apply elem_of_cons in Hin as [->|Hin].
        -- left. apply list_elem_of_fmap. exists (key, value). split; [done|].
           rewrite (rangeOrder_enumerates E i m). by apply elem_of_map_to_list.
        -- right. by exists headerMap.
    + rewrite length_app, length_fmap, IHlen. cbn [fmap list_fmap sum_list]. f_equal.
      rewrite (rangeOrder_enumerates E i m). by rewrite length_map_to_list.
Qed.

End check_paths.

(** ** Further properties of the generic HTTP evaluator *)

Section evaluator_paths.
Import Go metadata.

Context {any JSONValue AuthPipeline Credentials : Type}.
Implicit Types E : Collaborators (any := any) (JSONValue := JSONValue)
                                 (AuthPipeline := AuthPipeline)
                                 (Credentials := Credentials).
Implicit Types h : GenericHttp (JSONValue := JSONValue) (Credentials := Credentials).

(** The content type that goes with the request body. *)
Lemma Call_requestBody_contentType E h (authJSON contentType : string)
    (requestBody : option string) :
  Call_requestBody E h authJSON = inr (contentType, requestBody) →
  contentType = computed_content_type h.
Proof.
  unfold Call_requestBody, computed_content_type.
  destruct (Method h =? "GET")%string; [by intros [= <- _]|].
  destruct (Method h =? "POST")%string; [|discriminate].
  destruct (buildRequestBody E h authJSON); [discriminate|]. by intros [= <- _].
Qed.

(** The body is closed once or twice. *)
Lemma Call_response_closes (resp : http.Response) (closes : list Event)
    (result : Interface * option error) :
  Call_response resp = Some (closes, result) →
  closes = [BodyClose] ∨ closes = [BodyClose; BodyClose].
Proof.
  unfold Call_response. destruct (strings_Contains _ _).
  - destruct (Call_decode _ _ _) as [[err|elements]|]; [| |discriminate];
      intros [= <- _]; by left.
  - destruct (io_ReadAll _) as [str [err|]]; intros [= <- _]; by right.
Qed.

(** The paths of [Call]: it fails before anything is done, or it builds one
    request, logs it if the logger is enabled, sends it, and either reports
    the error of the client or parses the response. *)
Lemma Call_paths E h (pipeline : AuthPipeline) (ctx : gocontext.Context)
    (trace : list Event) (result : Interface * option error) :
  Call E h pipeline ctx = Some (trace, result) →
  (∃ err, trace = [] ∧ result = (value_nil, Some err)) ∨
  ∃ req requestBody log,
    gocontext.state ctx = gocontext.Active ∧
    http.req_Header req !! CanonicalMIMEHeaderKey E "Content-Type"
    = Some [computed_content_type h] ∧
    log = (if gocontext.logger_V1_Enabled ctx
           then [LogInfo "sending request" (Method h)
                   (ReplaceJSONPlaceholders E (Endpoint h) (GetAuthorizationJSON E pipeline))
                   (http.req_Header req) requestBody]
           else []) ∧
    ((∃ err, http_DefaultClient_Do E req = inl err ∧
             trace = log ++ [HttpDo req] ∧ result = (value_nil, Some err)) ∨
     (∃ resp closes, http_DefaultClient_Do E req = inr resp ∧
                     Call_response resp = Some (closes, result) ∧
                     trace = log ++ [HttpDo req] ++ closes)).
Proof.
  unfold Call. intros Hcall.
  destruct (CheckContext ctx) as [err|] eqn:Hcheck.
  { injection Hcall as <- <-. left. by exists err. }
  assert (gocontext.state ctx = gocontext.Active) as Hactive
    by (unfold CheckContext in Hcheck; by destruct (gocontext.state ctx)).
  destruct (Call_requestBody E h _) as [err|[contentType requestBody]] eqn:Hbody.
  { injection Hcall as <- <-. left. by exists err. }
  apply Call_requestBody_contentType in Hbody as ->.
  match type of Hcall with
  | context [match ?built with inl _ => _ | inr _ => _ end] =>
      destruct built as [err|req0]
  end.
  { injection Hcall as <- <-. left. by exists err. }
  set (req := Header_Set E _ "Content-Type" (computed_content_type h)) in Hcall.
  right. exists req, requestBody. eexists. split; [done|]. split.
  { subst req. cbn [Header_Set http.req_Header]. apply lookup_insert_eq. }
  split; [reflexivity|].
  destruct (http_DefaultClient_Do E req) as [err|resp].
  - injection Hcall as <- <-. left. by exists err.
  - destruct (Call_response resp) as [[closes res]|] eqn:Hresp; [|discriminate].
    injection Hcall as <- <-. right. by exists resp, closes.
Qed.

(** The requests sent on a path of the second kind. *)
Lemma requests_sent_path (log closes : list Event) (req : http.Request) :
  (∀ r, HttpDo r ∉ log) → (∀ ev, ev ∈ closes → ev = BodyClose) →
  requests_sent (log ++ [HttpDo req] ++ closes) = [req].
Proof.
  intros Hlog Hcloses. unfold requests_sent. rewrite !omap_app.
  assert (omap (fun ev => match ev with HttpDo r => Some r | _ => None end) log = [])
    as ->.
  { induction log as [|ev log IH]; [reflexivity|]. cbn [omap list_omap].
    destruct ev as [| r |]; [| |].
    - apply IH. intros r Hin. apply (Hlog r). by right.
    - exfalso. apply (Hlog r). by left.
    - apply IH. intros r Hin. apply (Hlog r). by right. }
  assert (omap (fun ev => match ev with HttpDo r => Some r | _ => None end) closes = [])
    as ->.
  { induction closes as [|ev closes IH]; [reflexivity|]. cbn [omap list_omap].
    rewrite (Hcloses ev) by (by left). apply IH. intros ev' Hin. apply Hcloses. by right. }
  reflexivity.
Qed.

(** X10. Whatever the method, every request [Call] sends carries as its
    Content-Type exactly the content type [Call] computed (text/plain for
    GET, the configured content type for POST), set after the configured
    headers: a configured Content-Type header never survives. *)
Theorem sent_request_has_computed_content_type E h (pipeline : AuthPipeline)
    (ctx : gocontext.Context) (trace : list Event) (result : Interface * option error)
    (req : http.Request) :
  Call E h pipeline ctx = Some (trace, result) →
  HttpDo req ∈ trace →
  http.req_Header req !! CanonicalMIMEHeaderKey E "Content-Type"
  = Some [computed_content_type h].
Proof.
  intros Hcall Hin.
  destruct (Call_paths E h pipeline ctx trace result Hcall)
    as [(err & -> & _)|(req' & requestBody & log & _ & Hheader & Hlog & Hsent)].
  { by apply not_elem_of_nil in Hin. }
  assert (req = req') as ->; [|done].
  assert (HttpDo req ∉ log) as Hnot
    by (subst log; destruct (gocontext.logger_V1_Enabled ctx);
        [rewrite list_elem_of_singleton; discriminate | apply not_elem_of_nil]).
  destruct Hsent as [(err & _ & -> & _)|(resp & closes & _ & Hresp & ->)].
  - rewrite elem_of_app, list_elem_of_singleton in Hin.
    destruct Hin as [Hin | Heq]; [done | by injection Heq].
  - rewrite !elem_of_app, list_elem_of_singleton in Hin.
    destruct Hin as [Hin | [Heq | Hin]]; [done | by injection Heq |].
    apply Call_response_closes in Hresp as [-> | ->]; set_unfold; naive_solver.
Qed.

(** X11. One invocation sends at most one request; when it sends none it
    has done nothing at all and returns an error. *)
Theorem at_most_one_request_is_sent E h (pipeline : AuthPipeline)
    (ctx : gocontext.Context) (trace : list Event) (result : Interface * option error) :
  Call E h pipeline ctx = Some (trace, result) →
  (length (requests_sent trace) ≤ 1)%nat ∧
  (requests_sent trace = [] → trace = [] ∧ ∃ err, result = (value_nil, Some err)).
Proof.
  intros Hcall.
  destruct (Call_paths E h pipeline ctx trace result Hcall)
    as [(err & -> & ->)|(req & requestBody & log & _ & _ & Hlog & Hsent)].
  { split; [cbn; lia|]. intros _. split; [done | by exists err]. }
  assert (∀ r, HttpDo r ∉ log) as Hnot
    by (intros r; subst log; destruct (gocontext.logger_V1_Enabled ctx);
        [rewrite list_elem_of_singleton; discriminate | apply not_elem_of_nil]).
  assert (requests_sent trace = [req]) as ->; [|split; [cbn; lia | discriminate]].
  destruct Hsent as [(err & _ & -> & _)|(resp & closes & _ & Hresp & ->)].
  - rewrite <- (app_nil_r [HttpDo req]).
    apply (requests_sent_path log [] req Hnot). intros ev Hin.
    by apply not_elem_of_nil in Hin.
  - apply (requests_sent_path log closes req Hnot).
    apply Call_response_closes in Hresp as [-> | ->]; set_unfold; naive_solver.
Qed.

(** X12. The request is logged only through a logger enabled at level 1:
    with the logger disabled the trace holds no log line; with it enabled a
    sent request is preceded by exactly one line, "sending request", with
    the method, the resolved endpoint and the headers of the request as it
    is sent. *)
Theorem request_is_logged_only_when_enabled E h (pipeline : AuthPipeline)
    (ctx : gocontext.Context) (trace : list Event) (result : Interface * option error) :
  Call E h pipeline ctx = Some (trace, result) →
  (gocontext.logger_V1_Enabled ctx = false →
   ∀ msg method url headers body, LogInfo msg method url headers body ∉ trace) ∧
  (gocontext.logger_V1_Enabled ctx = true →
   ∀ req, HttpDo req ∈ trace →
     ∃ body rest,
       trace = LogInfo "sending request" (Method h)
                 (ReplaceJSONPlaceholders E (Endpoint h) (GetAuthorizationJSON E pipeline))
                 (http.req_Header req) body :: HttpDo req :: rest ∧
       ∀ ev, ev ∈ rest → ev = BodyClose).
Proof.
  intros Hcall.
  destruct (Call_paths E h pipeline ctx trace result Hcall)
    as [(err & -> & _)|(req & requestBody & log & _ & _ & Hlog & Hsent)].
  { split; intros _.
    - intros; apply not_elem_of_nil.
    - intros req Hin. by apply not_elem_of_nil in Hin. }
  assert (∃ rest, trace = log ++ HttpDo req :: rest ∧ ∀ ev, ev ∈ rest → ev = BodyClose)
    as (rest & -> & Hrest).
  { destruct Hsent as [(err & _ & -> & _)|(resp & closes & _ & Hresp & ->)].
    - exists []. split; [done|]. intros ev Hin. by apply not_elem_of_nil in Hin.
    - exists closes. split; [done|].
      apply Call_response_closes in Hresp as [-> | ->]; set_unfold; naive_solver. }
  split; intros Henabled; rewrite Henabled in Hlog; subst log.
  - intros msg method url headers body Hin. cbn [app] in Hin.
    apply elem_of_cons in Hin as [[=]|Hin]. apply Hrest in Hin. discriminate.
  - intros r Hin. cbn [app] in Hin |- *.
    apply elem_of_cons in Hin as [[=]|Hin].
    apply elem_of_cons in Hin as [Heq | Hin]; [injection Heq as ->; by exists requestBody, rest|].
    apply Hrest in Hin. discriminate.
Qed.

(** X13. The body of a response is closed on every path that got one, and
    only there: the trace holds a close exactly when the client answered
    the request that was sent. *)
Theorem body_is_closed_iff_answered E h (pipeline : AuthPipeline)
    (ctx : gocontext.Context) (trace : list Event) (result : Interface * option error) :
  Call E h pipeline ctx = Some (trace, result) →
  (BodyClose ∈ trace ↔
   ∃ req resp, HttpDo req ∈ trace ∧ http_DefaultClient_Do E req = inr resp).
Proof.
  intros Hcall.
  destruct (Call_paths E h pipeline ctx trace result Hcall)
    as [(err & -> & _)|(req & requestBody & log & _ & _ & Hlog & Hsent)].
  { split; [intros Hin | intros (r & resp & Hin & _)]; by apply not_elem_of_nil in Hin. }
  assert ((BodyClose ∉ log) ∧ (∀ r, HttpDo r ∉ log)) as [Hnoclose Hnot]
    by (subst log; destruct (gocontext.logger_V1_Enabled ctx); split; intros;
        rewrite ?list_elem_of_singleton; try discriminate; apply not_elem_of_nil).
  destruct Hsent as [(err & Hdo & -> & _)|(resp & closes & Hdo & Hresp & ->)].
  - split.
    + rewrite elem_of_app, list_elem_of_singleton. intros [Hin|[=]]. done.
    + intros (r & resp & Hin & Hanswer).
      rewrite elem_of_app, list_elem_of_singleton in Hin.
      destruct Hin as [Hin | Heq]; [by apply Hnot in Hin | injection Heq as ->; congruence].
  - split.
    + intros _. exists req, resp. split; [|done].
      rewrite !elem_of_app, list_elem_of_singleton. auto.
    + intros _. rewrite !elem_of_app. right. right.
      apply Call_response_closes in Hresp as [-> | ->]; by left.
Qed.

End evaluator_paths.

Section response_paths.
Import Go metadata.



(** A prefix that has no semicolon ends before a semicolon of the text. *)
Lemma HasPrefix_before_semicolon (sub a r : string) :
  strings_Contains sub ";" = false →
  strings_HasPrefix (a +:+ String ";" r) sub = strings_HasPrefix a sub.
Proof.
  revert a. induction sub as [|p sub IH]; intros a Hno; [reflexivity|].
  assert (strings_Contains (String p sub) ";"
          = (p =? ";")%char || strings_Contains sub ";") as Hcons.
  { change (strings_Contains (String p sub) ";")
      with (strings_HasPrefix (String p sub) ";" || strings_Contains sub ";").
    cbn [strings_HasPrefix]. by rewrite andb_true_r, Ascii.eqb_sym. }
  rewrite Hcons in Hno. apply orb_false_elim in Hno as [Hp Hsub].
  destruct a as [|c a].
  - cbn [strings_HasPrefix]. change (EmptyString +:+ String ";" r) with (String ";" r).
    cbn [strings_HasPrefix]. by rewrite Hp.
  - rewrite append_cons. cbn [strings_HasPrefix]. by rewrite IH.
Qed.

Lemma Contains_around_semicolon (sub a r : string) :
  strings_Contains sub ";" = false →
  strings_Contains (a +:+ String ";" r) sub
  = strings_Contains a sub || strings_Contains r sub.
Proof.
  intros Hno. induction a as [|c a IH].
  - change (EmptyString +:+ String ";" r) with (String ";" r).
    change (strings_Contains (String ";" r) sub)
      with (strings_HasPrefix (String ";" r) sub || strings_Contains r sub).
    change (strings_Contains EmptyString sub)
      with (strings_HasPrefix EmptyString sub || false).
    rewrite <- (HasPrefix_before_semicolon sub EmptyString r Hno).
    by rewrite orb_false_r.
  - rewrite append_cons.
    change (strings_Contains (String c (a +:+ String ";" r)) sub)
      with (strings_HasPrefix (String c (a +:+ String ";" r)) sub
            || strings_Contains (a +:+ String ";" r) sub).
    change (strings_Contains (String c a) sub)
      with (strings_HasPrefix (String c a) sub || strings_Contains a sub).
    rewrite <- append_cons, (HasPrefix_before_semicolon sub (String c a) r Hno), IH.
    by rewrite orb_assoc.
Qed.

(** A text without semicolon occurs in the values joined by semicolons
    exactly when it occurs in one of them. *)
Lemma Contains_Join (sub : string) (values : list string) :
  strings_Contains sub ";" = false →
  strings_Contains EmptyString sub = false →
  strings_Contains (strings_Join values ";") sub
  = existsb (fun value => strings_Contains value sub) values.
Proof.
  intros Hno Hempty. induction values as [|value values IH]; [done|].
  destruct values as [|value' values].
  - cbn [strings_Join existsb]. by rewrite orb_false_r.
  - change (strings_Join (value :: value' :: values) ";")
      with (value +:+ String ";" (strings_Join (value' :: values) ";")).
    rewrite (Contains_around_semicolon sub _ _ Hno), IH. reflexivity.
Qed.

(** X9. A response is parsed as JSON exactly when one of its Content-Type
    values contains "application/json" (so also with parameters after it);
    otherwise, and when it has no Content-Type at all, its body is returned
    as text. *)
Theorem json_is_detected_in_any_content_type_value (resp : http.Response) :
  ((∃ value, value ∈ default [] (http.resp_Header resp !! "Content-Type") ∧
             strings_Contains value "application/json" = true) →
   ∀ closes result,
     Call_response resp = Some (closes, result) →
     closes = [BodyClose] ∧ ∀ text, result.1 ≠ value_string text) ∧
  ((∀ value, value ∈ default [] (http.resp_Header resp !! "Content-Type") →
             strings_Contains value "application/json" = false) →
   Call_response resp
   = Some ([BodyClose; BodyClose],
           match failure (http.resp_Body resp) with
           | Some err => (value_nil, Some err)
           | None => (value_string (unread (http.resp_Body resp)), None)
           end)).
Proof.
  unfold Call_response.
  rewrite (Contains_Join "application/json") by reflexivity.
  split.
  - intros (value & Hin & Hjson) closes result.
    assert (existsb (fun value => strings_Contains value "application/json")
              (default [] (http.resp_Header resp !! "Content-Type")) = true) as ->.
    { apply existsb_exists. exists value. split; [by apply list_elem_of_In | done]. }
    destruct (Call_decode _ _ _) as [[err|elements]|]; [| |discriminate];
      intros [= <- <-]; (split; [done|]); intros text; cbn [fst]; [discriminate|].
    destruct elements as [|c1 [|c2 rest]]; discriminate.
  - intros Hnone.
    assert (existsb (fun value => strings_Contains value "application/json")
              (default [] (http.resp_Header resp !! "Content-Type")) = false) as ->.
    { apply not_true_is_false. intros Hex. apply existsb_exists in Hex as (value & Hin & Hjson).
      apply list_elem_of_In in Hin. rewrite (Hnone value Hin) in Hjson. discriminate. }
    unfold io_ReadAll. by destruct (failure _).
Qed.

End response_paths.

Section request_body.
Import Go metadata.

Context {any JSONValue AuthPipeline Credentials : Type}.
Implicit Types E : Collaborators (any := any) (JSONValue := JSONValue)
                                 (AuthPipeline := AuthPipeline)
                                 (Credentials := Credentials).
Implicit Types h : GenericHttp (JSONValue := JSONValue) (Credentials := Credentials).
Implicit Types ps : list (JSONProperty (JSONValue := JSONValue)).

(** The map of resolved parameters that [buildRequestBody] fills, starting
    from [data]. *)
Abbreviation fill E authData data ps :=
  (foldl (fun (filled : gmap string any) param =>
            <[Name param := ResolveFor E (Value param) authData]> filled)
         data ps).

(** A parameter of a name that comes again later is overwritten. *)
Lemma fill_overwrites E (authData : string) ps :
  ∀ (data : gmap string any) (name : string) (value : any),
    name ∈ Name <$> ps →
    fill E authData (<[name := value]> data) ps = fill E authData data ps.
Proof.
  induction ps as [|p ps IH]; intros data name value Hin.
  - by apply not_elem_of_nil in Hin.
  - cbn [foldl]. destruct (decide (Name p = name)) as [->|Hne].
    + by rewrite insert_insert_eq.
    + rewrite insert_insert_ne by done. apply IH.
      rewrite fmap_cons in Hin. apply elem_of_cons in Hin as [Heq|Hin]; [congruence|done].
Qed.

(** Parameters of distinct names can be filled in any order. *)
Lemma fill_Permutation E (authData : string) ps ps' :
  ps ≡ₚ ps' → NoDup (Name <$> ps) →
  ∀ data : gmap string any, fill E authData data ps = fill E authData data ps'.
Proof.
  induction 1 as [|p ps ps' Hperm IH|p q ps|ps ps' ps'' Hperm IH Hperm' IH'];
    intros Hnodup data.
  - reflexivity.
  - cbn [foldl]. apply IH. rewrite fmap_cons in Hnodup. by apply NoDup_cons in Hnodup as [_ ?].
  - cbn [foldl]. rewrite !fmap_cons in Hnodup.
    apply NoDup_cons in Hnodup as [Hnotin _].
    rewrite insert_insert_ne; [done|]. intros Heq. apply Hnotin. rewrite Heq. by left.
  - rewrite IH by done. apply IH'. by rewrite <- Hperm.
Qed.

(** With distinct names every parameter is in the map, under its name. *)
Lemma fill_lookup E (authData : string) ps :
  NoDup (Name <$> ps) →
  ∀ (data : gmap string any) (name : string),
    fill E authData data ps !! name
    = match list_find (fun p => Name p = name) ps with
      | Some (_, p) => Some (ResolveFor E (Value p) authData)
      | None => data !! name
      end.
Proof.
  induction ps as [|p ps IH]; intros Hnodup data name; [reflexivity|].
  rewrite fmap_cons in Hnodup. apply NoDup_cons in Hnodup as [Hnotin Hnodup].
  cbn [foldl list_find]. rewrite IH by done. clear IH.
  destruct (decide (Name p = name)) as [Heq|Hne].
  - destruct (list_find _ ps) as [[i p']|] eqn:Hfind; cbn [fmap option_fmap option_map].
    + apply list_find_Some in Hfind as (Hlookup & Hname & _).
      exfalso. apply Hnotin. rewrite Heq, <- Hname.
      apply list_elem_of_fmap. exists p'. split; [done|]. by eapply list_elem_of_lookup_2.
    + cbn. rewrite <- Heq. apply lookup_insert_eq.
  - destruct (list_find _ ps) as [[i p']|]; cbn; [done|]. by apply lookup_insert_ne.
Qed.

(** Among parameters of distinct names, the name tells the parameter. *)
Lemma same_name_same_parameter ps (p p' : JSONProperty) :
  NoDup (Name <$> ps) → p ∈ ps → p' ∈ ps → Name p = Name p' → p = p'.
Proof.
  induction ps as [|a ps IH]; intros Hnodup Hp Hp' Hname.
  - by apply not_elem_of_nil in Hp.
  - rewrite fmap_cons in Hnodup. apply NoDup_cons in Hnodup as [Hnotin Hnodup].
    assert (∀ x, x ∈ ps → Name x ≠ Name a) as Hother.
    { intros x Hx Heq. apply Hnotin. rewrite <- Heq. apply list_elem_of_fmap. by exists x. }
    apply elem_of_cons in Hp as [->|Hp]; apply elem_of_cons in Hp' as [->|Hp'].
    + done.
    + exfalso. by apply (Hother p' Hp').
    + exfalso. by apply (Hother p Hp).
    + by apply IH.
Qed.

(** The form loop fails exactly when a value does not stringify. *)
Lemma formValues_None E (entries : list (string * any)) :
  ∀ formData,
    formValues E entries formData = None ↔
    ∃ key value err, (key, value) ∈ entries ∧ StringifyJSON E value = inl err.
Proof.
  induction entries as [|[key value] entries IH]; intros formData; cbn [formValues].
  - split; [discriminate|]. intros (k & v & e & Hin & _). by apply not_elem_of_nil in Hin.
  - destruct (StringifyJSON E value) as [err|valueAsStr] eqn:Hstr.
    + split; [|done]. intros _. exists key, value, err. split; [by left | done].
    + rewrite IH. split.
      * intros (k & v & e & Hin & Hfail). exists k, v, e. split; [by right | done].
      * intros (k & v & e & Hin & Hfail). apply elem_of_cons in Hin as [[= -> ->]|Hin].
        -- congruence.
        -- by exists k, v, e.
Qed.

(** When it succeeds, every entry has become a form field with one value. *)
Lemma formValues_Some E (entries : list (string * any)) :
  NoDup entries.*1 →
  ∀ formData formData',
    formValues E entries formData = Some formData' →
    (∀ key value, (key, value) ∈ entries →
                  ∃ valueAsStr, StringifyJSON E value = inr valueAsStr ∧
                                formData' !! key = Some [valueAsStr]) ∧
    (∀ key, key ∉ entries.*1 → formData' !! key = formData !! key).
Proof.
  induction entries as [|[key value] entries IH]; intros Hnodup formData formData';
    cbn [formValues].
  - intros [= <-]. split; [|done]. intros k v Hin. by apply not_elem_of_nil in Hin.
  - rewrite fmap_cons in Hnodup. cbn [fst] in Hnodup.
    apply NoDup_cons in Hnodup as [Hnotin Hnodup].
    destruct (StringifyJSON E value) as [err|valueAsStr] eqn:Hstr; [discriminate|].
    intros Hrest. destruct (IH Hnodup _ _ Hrest) as [Hin Hout]. split.
    + intros k v Hkv. apply elem_of_cons in Hkv as [[= -> ->]|Hkv]; [|by apply Hin].
      exists valueAsStr. split; [done|]. rewrite Hout by done. apply lookup_insert_eq.
    + intros k Hk. rewrite fmap_cons in Hk. cbn [fst] in Hk.
      apply not_elem_of_cons in Hk as [Hne Hk].
      rewrite Hout by done. by apply lookup_insert_ne.
Qed.

(** X14. A GET evaluator never looks at its body template, its parameters
    or its content type: two GET evaluators that agree on the endpoint, the
    headers, the shared secret and the credentials behave alike, even when
    the body of one could not be encoded. *)
Theorem GET_ignores_body_configuration E h h' (pipeline : AuthPipeline)
    (ctx : gocontext.Context) :
  Method h = "GET" → Method h' = "GET" →
  Endpoint h = Endpoint h' → Headers h = Headers h' →
  SharedSecret h = SharedSecret h' → AuthCredentials h = AuthCredentials h' →
  Call E h pipeline ctx = Call E h' pipeline ctx.
Proof.
  intros Hget Hget' Hendpoint Hheaders Hsecret Hcredentials. unfold Call.
  rewrite (Call_requestBody_GET E h _ Hget), (Call_requestBody_GET E h' _ Hget').
  by rewrite Hget, Hget', Hendpoint, Hheaders, Hsecret, Hcredentials.
Qed.

(** X15. With a body template a POST evaluator never looks at its
    parameters and does not check its content type: the body is the
    template resolved and stringified (or the error "failed to encode http
    request") under the configured content type whatever it is, and two
    such evaluators that differ in their parameters only behave alike. *)
Theorem body_template_replaces_parameters E h h' (pipeline : AuthPipeline)
    (ctx : gocontext.Context) (body : JSONValue) :
  Method h = "POST" → Method h' = "POST" →
  Body h = Some body → Body h' = Some body →
  ContentType h = ContentType h' →
  Endpoint h = Endpoint h' → Headers h = Headers h' →
  SharedSecret h = SharedSecret h' → AuthCredentials h = AuthCredentials h' →
  Call E h pipeline ctx = Call E h' pipeline ctx ∧
  ∀ authJSON,
    Call_requestBody E h authJSON
    = match StringifyJSON E (ResolveFor E body authJSON) with
      | inl _ => inl (fmt_Errorf "failed to encode http request")
      | inr text => inr (ContentType h, Some text)
      end.
Proof.
  intros Hpost Hpost' Hbody Hbody' Hcontent Hendpoint Hheaders Hsecret Hcredentials.
  assert (∀ g authJSON,
            Method g = "POST" → Body g = Some body →
            Call_requestBody E g authJSON
            = match StringifyJSON E (ResolveFor E body authJSON) with
              | inl _ => inl (fmt_Errorf "failed to encode http request")
              | inr text => inr (ContentType g, Some text)
              end) as Htemplate.
  { intros g authJSON Hg Hb. unfold Call_requestBody, buildRequestBody. rewrite Hg, Hb.
    change ("POST" =? "GET")%string with false. change ("POST" =? "POST")%string with true.
    cbv iota. by destruct (StringifyJSON E _). }
  split; [|intros authJSON; by apply Htemplate].
  unfold Call. rewrite !Htemplate by done.
  by rewrite Hpost, Hpost', Hcontent, Hendpoint, Hheaders, Hsecret, Hcredentials.
Qed.

(** X16. The body built from parameters depends on the parameters through
    the map of their resolved values only: parameters of distinct names
    give the same body in any order, and a parameter whose name comes again
    later in the list has no effect on the body. *)
Theorem parameters_are_a_map E h h' (authData : string) :
  Body h = None → Body h' = None → ContentType h = ContentType h' →
  (Parameters h ≡ₚ Parameters h' → NoDup (Name <$> Parameters h) →
   buildRequestBody E h authData = buildRequestBody E h' authData) ∧
  (∀ before after overwritten,
     Parameters h = before ++ overwritten :: after →
     Parameters h' = before ++ after →
     Name overwritten ∈ Name <$> after →
     buildRequestBody E h authData = buildRequestBody E h' authData).
Proof.
  intros Hbody Hbody' Hcontent.
  assert (fill E authData ∅ (Parameters h) = fill E authData ∅ (Parameters h') →
          buildRequestBody E h authData = buildRequestBody E h' authData) as Hsame.
  { intros Hfill. unfold buildRequestBody. rewrite Hbody, Hbody', Hcontent. cbv zeta.
    by rewrite Hfill. }
  split.
  - intros Hperm Hnodup. apply Hsame. by apply fill_Permutation.
  - intros before after overwritten Hps Hps' Hagain. apply Hsame. rewrite Hps, Hps'.
    rewrite !foldl_app. cbn [foldl]. by apply fill_overwrites.
Qed.

(** X17. Form encoding of parameters of distinct names fails, with the
    error "failed to encode http request", exactly when the resolved value
    of one of them does not stringify; otherwise the body is the encoding
    of a form that has, for each parameter, its name with the single value
    it stringifies to, and no other field. *)
Theorem form_body_of_parameters E h (authData : string) :
  Body h = None →
  ContentType h = "application/x-www-form-urlencoded" →
  NoDup (Name <$> Parameters h) →
  (buildRequestBody E h authData = inl (fmt_Errorf "failed to encode http request") ↔
   ∃ param err,
     param ∈ Parameters h ∧
     StringifyJSON E (ResolveFor E (Value param) authData) = inl err) ∧
  ((∀ param, param ∈ Parameters h →
             ∃ text, StringifyJSON E (ResolveFor E (Value param) authData) = inr text) →
   ∃ formData,
     buildRequestBody E h authData = inr (Some (url_Values_Encode E formData)) ∧
     (∀ param, param ∈ Parameters h →
               ∃ text, StringifyJSON E (ResolveFor E (Value param) authData) = inr text ∧
                       formData !! Name param = Some [text]) ∧
     (∀ name, name ∉ Name <$> Parameters h → formData !! name = None)).
Proof.
  intros Hbody Hcontent Hnodup.
  set (data := fill E authData ∅ (Parameters h)).
  assert (∀ name value,
            data !! name = Some value ↔
            ∃ param, param ∈ Parameters h ∧ Name param = name ∧
                     value = ResolveFor E (Value param) authData) as Hdata.
  { intros name value. subst data. rewrite (fill_lookup E authData _ Hnodup).
    destruct (list_find _ _) as [[i p]|] eqn:Hfind.
    - apply list_find_Some in Hfind as (Hlookup & Hname & _).
      apply list_elem_of_lookup_2 in Hlookup. split.
      + intros [= <-]. by exists p.
      + intros (p' & Hin & Hname' & ->). do 3 f_equal.
        apply (same_name_same_parameter (Parameters h)); [done..|congruence].
    - rewrite lookup_empty. split; [discriminate|].
      intros (p' & Hin & Hname' & _). exfalso.
      apply list_find_None in Hfind. rewrite Forall_forall in Hfind.
      by apply (Hfind p' Hin). }
  assert (buildRequestBody E h authData
          = match formValues E (map_to_list data) ∅ with
            | None => inl (fmt_Errorf "failed to encode http request")
            | Some formData => inr (Some (url_Values_Encode E formData))
            end) as ->.
  { unfold buildRequestBody. rewrite Hbody, Hcontent. reflexivity. }
  assert (formValues E (map_to_list data) ∅ = None ↔
          ∃ param err, param ∈ Parameters h ∧
                       StringifyJSON E (ResolveFor E (Value param) authData) = inl err)
    as Hfails.
  { rewrite formValues_None. split.
    - intros (key & value & err & Hin & Hfail).
      apply elem_of_map_to_list, Hdata in Hin as (param & Hin & _ & ->). by exists param, err.
    - intros (param & err & Hin & Hfail).
      exists (Name param), (ResolveFor E (Value param) authData), err. split; [|done].
      apply elem_of_map_to_list, Hdata. by exists param. }
  split.
  - rewrite <- Hfails. destruct (formValues E _ _); split; done.
  - intros Hall.
    destruct (formValues E (map_to_list data) ∅) as [formData|] eqn:Hform.
    2:{ destruct (proj1 Hfails eq_refl) as (param & err & Hin & Hfail).
        destruct (Hall param Hin) as [text Htext]. congruence. }
    exists formData. split; [done|].
    destruct (formValues_Some E (map_to_list data) (NoDup_fst_map_to_list data) _ _ Hform)
      as [Hin Hout].
    split.
    + intros param Hparam.
      apply (Hin (Name param) (ResolveFor E (Value param) authData)).
      apply elem_of_map_to_list, Hdata. by exists param.
    + intros name Hname. rewrite Hout, ?lookup_empty; [done|].
      intros Hkey. apply list_elem_of_fmap in Hkey as ([k v] & -> & Hkv).
      apply elem_of_map_to_list, Hdata in Hkv as (param & Hparam & Hk & _).
      apply Hname. cbn [fst]. rewrite <- Hk. apply list_elem_of_fmap. by exists param.
Qed.

End request_body.

(** *** The further properties on the sample instances *)

Section more_examples.
Import Go service metadata sample.

Lemma allowed_request_witness :
  ∃ log response,
    Check (handler_collaborators_with marshal_ok allow_with_headers (fun _ => inr tt))
          two_configs live (request_for "api:8080")
    = (service.LogInfo "Check()" "reqJSON" "{}"
         :: (service.Check_apiConfig (MetadataMap := unit) two_configs "api:8080").1 ++
       [PipelineEvaluate live (request_for "api:8080") "with-port";
        LogInfoResult "Check()" "result" allow_with_headers] ++ log,
       Returned (response, None)) ∧
    Status_Code response = 0%Z ∧
    HttpResponse response
    = CheckResponse_OkResponse
        (buildResponseHeaders
           (handler_collaborators_with marshal_ok allow_with_headers (fun _ => inr tt))
           (service.Headers allow_with_headers)) ∧
    (∀ ev, ev ∈ log → ∃ err msg, ev = LogError err msg).
Proof.
  apply (allowed_request_gets_ok_response
           (handler_collaborators_with marshal_ok allow_with_headers (fun _ => inr tt))
           two_configs live (request_for "api:8080") "{}" "api:8080" "with-port");
    reflexivity.
Defined.

Lemma denied_request_witness :
  Check (handler_collaborators_with marshal_ok deny_unauthenticated (fun _ => inr tt))
        two_configs live (request_for "api:8080")
  = ([service.LogInfo "Check()" "reqJSON" "{}"; CacheGet "api:8080";
      PipelineEvaluate live (request_for "api:8080") "with-port";
      LogInfoResult "Check()" "result" deny_unauthenticated],
     Returned
       ({| Status_Code := 16%Z;
           HttpResponse :=
             CheckResponse_DeniedResponse 401%Z
               [header ("WWW-Authenticate", "Bearer");
                header ("X-Ext-Auth-Reason", "credential not found")];
           DynamicMetadata := None |}, None)).
Proof.
  apply (denied_request_gets_verdict
           (handler_collaborators_with marshal_ok deny_unauthenticated (fun _ => inr tt))
           two_configs live (request_for "api:8080") "{}" "api:8080" "with-port");
    (reflexivity || discriminate).
Defined.

Lemma metadata_failure_witness :
  ∃ trace,
    Check (handler_collaborators_with marshal_ok allow_with_headers
             (fun _ => inl (foreign_error "structpb" "invalid type")))
          two_configs live (request_for "api:8080")
    = (trace ++ [LogError (foreign_error "structpb" "invalid type")
                   "failed to create dynamic metadata"],
       Returned
         ({| Status_Code := 0%Z;
             HttpResponse :=
               CheckResponse_OkResponse
                 (buildResponseHeaders
                    (handler_collaborators_with marshal_ok allow_with_headers
                       (fun _ => inl (foreign_error "structpb" "invalid type")))
                    (service.Headers allow_with_headers));
             DynamicMetadata := None |}, None)).
Proof.
  apply (metadata_failure_keeps_success
           (handler_collaborators_with marshal_ok allow_with_headers
              (fun _ => inl (foreign_error "structpb" "invalid type")))
           two_configs live (request_for "api:8080") "{}" "api:8080" "with-port");
    reflexivity.
Defined.

(** What the handler returns for the allowed sample request. *)
Lemma allowed_request_response :
  (Check (handler_collaborators_with marshal_ok allow_with_headers (fun _ => inr tt))
         two_configs live (request_for "api:8080")).2
  = Returned
      ({| Status_Code := 0%Z;
          HttpResponse :=
            CheckResponse_OkResponse [header ("X-User", "jane"); header ("X-Role", "admin")];
          DynamicMetadata := Some tt |}, None).
Proof. vm_compute. reflexivity. Qed.

Lemma response_status_witness :
  @None error = None ∧
  (0%Z = rpc.OK ↔
   ∃ headers,
     CheckResponse_OkResponse [header ("X-User", "jane"); header ("X-Role", "admin")]
     = CheckResponse_OkResponse headers) ∧
  (Some tt ≠ None → 0%Z = rpc.OK).
Proof.
  apply (response_status_agrees_with_variant
           (handler_collaborators_with marshal_ok allow_with_headers (fun _ => inr tt))
           two_configs live (request_for "api:8080")
           {| Status_Code := 0%Z;
              HttpResponse :=
                CheckResponse_OkResponse
                  [header ("X-User", "jane"); header ("X-Role", "admin")];
              DynamicMetadata := Some tt |} None).
  exact allowed_request_response.
Defined.

(** What the sample POST evaluator does under a verbose logger. *)
Lemma POST_request_sent :
  Call (evaluator_collaborators (fun _ => inr (response "text/plain" "hello")))
       (evaluator "POST" "application/json" None) "{}" verbose
  = Some ([metadata.LogInfo "sending request" "POST" "http://metadata.example/info"
             (http.req_Header (post_request verbose)) (Some "{}");
           HttpDo (post_request verbose); BodyClose; BodyClose],
          (value_string "hello", None)).
Proof. vm_compute. reflexivity. Qed.

Lemma content_type_witness :
  http.req_Header (post_request verbose) !! "Content-Type" = Some ["application/json"].
Proof.
  apply (sent_request_has_computed_content_type
           (evaluator_collaborators (fun _ => inr (response "text/plain" "hello")))
           (evaluator "POST" "application/json" None) "{}" verbose _ _
           (post_request verbose) POST_request_sent).
  apply elem_of_cons. right. apply elem_of_cons. by left.
Defined.

Lemma one_request_witness :
  (length (requests_sent
             [metadata.LogInfo "sending request" "POST" "http://metadata.example/info"
                (http.req_Header (post_request verbose)) (Some "{}");
              HttpDo (post_request verbose); BodyClose; BodyClose]) ≤ 1)%nat ∧
  (requests_sent
     [metadata.LogInfo "sending request" "POST" "http://metadata.example/info"
        (http.req_Header (post_request verbose)) (Some "{}");
      HttpDo (post_request verbose); BodyClose; BodyClose] = [] →
   [metadata.LogInfo "sending request" "POST" "http://metadata.example/info"
      (http.req_Header (post_request verbose)) (Some "{}");
    HttpDo (post_request verbose); BodyClose; BodyClose] = [] ∧
   ∃ err, (value_string "hello", @None error) = (value_nil, Some err)).
Proof.
  exact (at_most_one_request_is_sent
           (evaluator_collaborators (fun _ => inr (response "text/plain" "hello")))
           (evaluator "POST" "application/json" None) "{}" verbose _ _ POST_request_sent).
Defined.

Lemma logged_request_witness :
  ∃ body rest,
    [metadata.LogInfo "sending request" "POST" "http://metadata.example/info"
       (http.req_Header (post_request verbose)) (Some "{}");
     HttpDo (post_request verbose); BodyClose; BodyClose]
    = metadata.LogInfo "sending request" "POST" "http://metadata.example/info"
        (http.req_Header (post_request verbose)) body
        :: HttpDo (post_request verbose) :: rest ∧
    ∀ ev, ev ∈ rest → ev = BodyClose.
Proof.
  apply (proj2 (request_is_logged_only_when_enabled
                  (evaluator_collaborators (fun _ => inr (response "text/plain" "hello")))
                  (evaluator "POST" "application/json" None) "{}" verbose _ _
                  POST_request_sent) eq_refl (post_request verbose)).
  apply elem_of_cons. right. apply elem_of_cons. by left.
Defined.

Lemma closed_body_witness :
  BodyClose
  ∈ [metadata.LogInfo "sending request" "POST" "http://metadata.example/info"
       (http.req_Header (post_request verbose)) (Some "{}");
     HttpDo (post_request verbose); BodyClose; BodyClose] ↔
  ∃ req resp,
    HttpDo req
    ∈ [metadata.LogInfo "sending request" "POST" "http://metadata.example/info"
         (http.req_Header (post_request verbose)) (Some "{}");
       HttpDo (post_request verbose); BodyClose; BodyClose] ∧
    http_DefaultClient_Do
      (evaluator_collaborators (fun _ => inr (response "text/plain" "hello"))) req
    = inr resp.
Proof.
  exact (body_is_closed_iff_answered
           (evaluator_collaborators (fun _ => inr (response "text/plain" "hello")))
           (evaluator "POST" "application/json" None) "{}" verbose _ _ POST_request_sent).
Defined.

Lemma GET_frame_witness :
  Call (evaluator_collaborators (fun _ => inr (response "text/plain" "hello")))
       (evaluator "GET" "application/json" None) "{}" live
  = Call (evaluator_collaborators (fun _ => inr (response "text/plain" "hello")))
         (evaluator_with_body "GET" "text/xml" "{}" []) "{}" live.
Proof.
  apply (GET_ignores_body_configuration
           (evaluator_collaborators (fun _ => inr (response "text/plain" "hello")))
           (evaluator "GET" "application/json" None)
           (evaluator_with_body "GET" "text/xml" "{}" []) "{}" live);
    reflexivity.
Defined.

Lemma body_template_witness :
  Call (evaluator_collaborators (fun _ => inr (response "text/plain" "hello")))
       (evaluator_with_body "POST" "text/xml" "{}"
          [ {| metadata.Name := "a"; metadata.Value := "1" |} ]) "{}" live
  = Call (evaluator_collaborators (fun _ => inr (response "text/plain" "hello")))
         (evaluator_with_body "POST" "text/xml" "{}" []) "{}" live ∧
  ∀ authJSON,
    Call_requestBody
      (evaluator_collaborators (fun _ => inr (response "text/plain" "hello")))
      (evaluator_with_body "POST" "text/xml" "{}"
         [ {| metadata.Name := "a"; metadata.Value := "1" |} ]) authJSON
    = inr ("text/xml", Some "{}").
Proof.
  apply (body_template_replaces_parameters
           (evaluator_collaborators (fun _ => inr (response "text/plain" "hello")))
           (evaluator_with_body "POST" "text/xml" "{}"
              [ {| metadata.Name := "a"; metadata.Value := "1" |} ])
           (evaluator_with_body "POST" "text/xml" "{}" []) "{}" live "{}");
    reflexivity.
Defined.

Lemma parameter_order_witness :
  buildRequestBody (evaluator_collaborators (fun _ => inr (response "text/plain" "hello")))
    (evaluator "POST" "application/json" None) "{}"
  = buildRequestBody (evaluator_collaborators (fun _ => inr (response "text/plain" "hello")))
      (evaluator_swapped "POST" "application/json") "{}".
Proof.
  apply (proj1 (parameters_are_a_map
                  (evaluator_collaborators (fun _ => inr (response "text/plain" "hello")))
                  (evaluator "POST" "application/json" None)
                  (evaluator_swapped "POST" "application/json") "{}"
                  eq_refl eq_refl eq_refl)).
  - apply perm_swap.
  - apply NoDup_cons. split; [|apply NoDup_singleton].
    rewrite list_elem_of_singleton. discriminate.
Defined.

Lemma form_body_witness :
  ∃ formData,
    buildRequestBody (evaluator_collaborators (fun _ => inr (response "text/plain" "hello")))
      (evaluator "POST" "application/x-www-form-urlencoded" None) "{}"
    = inr (Some (url_Values_Encode
                   (evaluator_collaborators (fun _ => inr (response "text/plain" "hello")))
                   formData)) ∧
    (∀ param,
       param ∈ Parameters (evaluator "POST" "application/x-www-form-urlencoded" None) →
       ∃ text,
         StringifyJSON
           (evaluator_collaborators (fun _ => inr (response "text/plain" "hello")))
           (ResolveFor
              (evaluator_collaborators (fun _ => inr (response "text/plain" "hello")))
              (metadata.Value param) "{}") = inr text ∧
         formData !! Name param = Some [text]) ∧
    (∀ name,
       name ∉ Name <$> Parameters (evaluator "POST" "application/x-www-form-urlencoded" None) →
       formData !! name = None).
Proof.
  assert (NoDup (Name <$> Parameters
                              (evaluator "POST" "application/x-www-form-urlencoded" None)))
    as Hnodup.
  { apply NoDup_cons. split; [|apply NoDup_singleton].
    rewrite list_elem_of_singleton. discriminate. }
  apply (proj2 (form_body_of_parameters
                  (evaluator_collaborators (fun _ => inr (response "text/plain" "hello")))
                  (evaluator "POST" "application/x-www-form-urlencoded" None) "{}"
                  eq_refl eq_refl Hnodup)).
  intros param _. by eexists.
Defined.

End more_examples.

(** ** An entry under the host as given *)

Section exact_host.
Import Go service.

Context {APIConfig MetadataMap Struct : Type}.
Implicit Types E : Collaborators (APIConfig := APIConfig) (MetadataMap := MetadataMap)
                                 (Struct := Struct).
Implicit Types self : AuthService (APIConfig := APIConfig).

Abbreviation Check_apiConfig := (service.Check_apiConfig (MetadataMap := MetadataMap)).

(** C10, as amended. For a request that serializes and whose host, as given,
    has a configuration [config]: the handler reads the cache once, for the
    host as given, runs the pipeline once, against [config], and answers
    with the response of its verdict; the host stripped of its port is never
    looked up. For any host, the cache is read a second time only after the
    read for the host as given found nothing. *)
Theorem exact_host_entry_is_used E self ctx req (reqJSON host : string)
    (config : APIConfig) :
  json_MarshalIndent E req = inr reqJSON →
  CheckRequest_Host req = Some host →
  Cache self !! host = Some config →
  Check_apiConfig self host = ([CacheGet host], Returned (Some config)) ∧
  (∃ log,
     (Check E self ctx req).1
     = [LogInfo "Check()" "reqJSON" reqJSON; CacheGet host;
        PipelineEvaluate ctx req config;
        LogInfoResult "Check()" "result" (AuthPipeline_Evaluate E ctx req config)] ++ log ∧
     ∀ ev, ev ∈ log → ∃ err msg, ev = LogError err msg) ∧
  (Check E self ctx req).2
  = Returned
      (if Success (AuthPipeline_Evaluate E ctx req config)
       then (successResponse E self (AuthPipeline_Evaluate E ctx req config)).2
       else deniedResponse E self (AuthPipeline_Evaluate E ctx req config), None) ∧
  (∀ key, CacheGet key ∈ (Check E self ctx req).1 → key = host) ∧
  (∀ ctx' req' config',
     PipelineEvaluate ctx' req' config' ∈ (Check E self ctx req).1 →
     ctx' = ctx ∧ req' = req ∧ config' = config) ∧
  (∀ host' : string,
     (Check_apiConfig self host').1 = [CacheGet host'] ∨
     (Cache self !! host' = None ∧
      (Check_apiConfig self host').1 = [CacheGet host'; CacheGet (before_colon host')])).
Proof.
  intros Hmarshal Hhost Hexact.
  assert (Check_apiConfig self host = ([CacheGet host], Returned (Some config))) as Hresolved
    by (by rewrite Check_apiConfig_spec, Hexact).
  split; [done|].
  assert (∃ log,
            Check E self ctx req
            = ([LogInfo "Check()" "reqJSON" reqJSON; CacheGet host;
                PipelineEvaluate ctx req config;
                LogInfoResult "Check()" "result" (AuthPipeline_Evaluate E ctx req config)]
               ++ log,
               Returned
                 (if Success (AuthPipeline_Evaluate E ctx req config)
                  then (successResponse E self (AuthPipeline_Evaluate E ctx req config)).2
                  else deniedResponse E self (AuthPipeline_Evaluate E ctx req config),
                  None)) ∧
            ∀ ev, ev ∈ log → ∃ err msg, ev = LogError err msg) as (log & Hcheck & Hlog).
  { destruct (Check_resolved E self ctx req reqJSON host Hmarshal Hhost)
      as (reads & found & Hlookup & ->).
    rewrite Hresolved in Hlookup. injection Hlookup as <- <-. cbv zeta.
    destruct (Success _).
    - exists (successResponse E self (AuthPipeline_Evaluate E ctx req config)).1.
      split; [reflexivity|]. unfold successResponse.
      destruct (structpb_NewStruct E _) as [err|s]; cbn [fst]; intros ev Hin.
      + apply list_elem_of_singleton in Hin. eauto.
      + by apply not_elem_of_nil in Hin.
    - exists []. split; [by rewrite app_nil_r|].
      intros ev Hin. by apply not_elem_of_nil in Hin. }
  rewrite Hcheck. cbn [fst snd].
  split; [by exists log|]. split; [done|]. split; [|split].
  - intros key Hin. rewrite elem_of_app in Hin. destruct Hin as [Hin|Hin].
    + rewrite !elem_of_cons in Hin.
      destruct Hin as [Hin|[Hin|[Hin|[Hin|Hin]]]]; try discriminate.
      * by injection Hin.
      * by apply not_elem_of_nil in Hin.
    + apply Hlog in Hin as (err & msg & Hev). discriminate.
  - intros ctx' req' config' Hin. rewrite elem_of_app in Hin. destruct Hin as [Hin|Hin].
    + rewrite !elem_of_cons in Hin.
      destruct Hin as [Hin|[Hin|[Hin|[Hin|Hin]]]]; try discriminate.
      * by injection Hin as -> -> ->.
      * by apply not_elem_of_nil in Hin.
    + apply Hlog in Hin as (err & msg & Hev). discriminate.
  - intros host'. rewrite Check_apiConfig_spec.
    destruct (Cache self !! host'); [by left|].
    destruct (strings_Contains host' ":"); [right | left]; done.
Qed.

End exact_host.

(** ** The request of a GET evaluator *)

Section GET_requests.
Import Go metadata.

Context {any JSONValue AuthPipeline Credentials : Type}.
Implicit Types E : Collaborators (any := any) (JSONValue := JSONValue)
                                 (AuthPipeline := AuthPipeline)
                                 (Credentials := Credentials).
Implicit Types h : GenericHttp (JSONValue := JSONValue) (Credentials := Credentials).


End GET_requests.

(** *** The amended statements on the sample instances *)

Section amended_examples.
Import Go service metadata sample.

(** C10 as stated fails on a request that does not serialize: its host has
    an entry of its own, yet the cache is not read and no pipeline is run;
    the answer is the denial FAILED_PRECONDITION / 400. *)
Lemma exact_entry_unserializable_request :
  CheckRequest_Host (request_for "api:8080") = Some "api:8080" ∧
  Cache two_configs !! "api:8080" = Some "with-port" ∧
  Check (handler_collaborators marshal_fails) two_configs live (request_for "api:8080")
  = ([], Returned
           ({| Status_Code := 9%Z;
               HttpResponse :=
                 CheckResponse_DeniedResponse 400%Z
                   [header ("X-Ext-Auth-Reason", "Invalid request")];
               DynamicMetadata := None |}, None)).
Proof. repeat split; vm_compute; reflexivity. Qed.

Lemma exact_entry_witness :
  service.Check_apiConfig (MetadataMap := unit) two_configs "api:8080"
  = ([CacheGet "api:8080"], Returned (Some "with-port")) ∧
  (∃ log,
     (Check (handler_collaborators marshal_ok) two_configs live (request_for "api:8080")).1
     = [service.LogInfo "Check()" "reqJSON" "{}"; CacheGet "api:8080";
        PipelineEvaluate live (request_for "api:8080") "with-port";
        LogInfoResult "Check()" "result"
          (AuthPipeline_Evaluate (handler_collaborators marshal_ok) live
             (request_for "api:8080") "with-port")] ++ log ∧
     ∀ ev, ev ∈ log → ∃ err msg, ev = LogError err msg) ∧
  (Check (handler_collaborators marshal_ok) two_configs live (request_for "api:8080")).2
  = Returned
      (if Success (AuthPipeline_Evaluate (handler_collaborators marshal_ok) live
                     (request_for "api:8080") "with-port")
       then (successResponse (handler_collaborators marshal_ok) two_configs
               (AuthPipeline_Evaluate (handler_collaborators marshal_ok) live
                  (request_for "api:8080") "with-port")).2
       else deniedResponse (handler_collaborators marshal_ok) two_configs
              (AuthPipeline_Evaluate (handler_collaborators marshal_ok) live
                 (request_for "api:8080") "with-port"), None) ∧
  (∀ key,
     CacheGet key
     ∈ (Check (handler_collaborators marshal_ok) two_configs live
              (request_for "api:8080")).1 →
     key = "api:8080") ∧
  (∀ ctx' req' config',
     PipelineEvaluate ctx' req' config'
     ∈ (Check (handler_collaborators marshal_ok) two_configs live
              (request_for "api:8080")).1 →
     ctx' = live ∧ req' = request_for "api:8080" ∧ config' = "with-port") ∧
  (∀ host' : string,
     (service.Check_apiConfig (MetadataMap := unit) two_configs host').1 = [CacheGet host'] ∨
     (Cache two_configs !! host' = None ∧
      (service.Check_apiConfig (MetadataMap := unit) two_configs host').1
      = [CacheGet host'; CacheGet (before_colon host')])).
Proof.
  apply (exact_host_entry_is_used
           (handler_collaborators marshal_ok) two_configs live (request_for "api:8080")
           "{}" "api:8080" "with-port");
    reflexivity.
Defined.



End amended_examples.
